(** * CodeOptimizer: language detection and the version-history state machine

    A shallow embedding of [src/CodeOptimizer.py], a Streamlit script that is
    executed from top to bottom once per user interaction.  The embedding
    covers the parts of the script that carry logic:

    - the language detection of lines 119-220 (extension table, lexer
      guessing, the alias table and its three matching stages);
    - the session state of lines 35-45 and 283-285;
    - the four button handlers of lines 255-311 and the comparison view of
      lines 313-359.

    Conventions.
    - A Python [str] is a [string]; a character stands for the Unicode code
      point of the same number, so the development covers the texts whose
      code points are below 256.  [str.lower], [str.strip] and the regular
      expression [[^a-z0-9]] are written out on that alphabet.
    - Python's [None] for the detected language is [None : option string];
      truthiness ([if x], [not x]) is written out by [truthy] functions.
    - Dictionaries whose iteration order is used by the script are
      association lists in the order of the source.
    - The collaborators (Pygments' [guess_lexer], the two LLM chains and the
      Streamlit text area) are parameters; every call to them and everything
      the script renders is recorded in a trace.
    - [script] is a run from the text area on, with the uploaded file as
      line 95 has decoded it; [run_script] is the run from the uploader on,
      with the decoding of line 95, which can raise. *)

From Stdlib Require Import String Ascii List Bool NArith ZArith Lia.
Import ListNotations.

Local Open Scope string_scope.
Local Open Scope list_scope.

Set Implicit Arguments.

(** ** Python string primitives *)

Module PyStr.

Definition code (c : ascii) : N := N_of_ascii c.

Definition between (lo hi : N) (c : ascii) : bool :=
  ((lo <=? code c) && (code c <=? hi))%N.

(** [str.lower] on one code point: A-Z, and the upper-case letters of the
    Latin-1 block (U+00C0-U+00DE without the multiplication sign U+00D7). *)
Definition is_upper (c : ascii) : bool :=
  between 65 90 c || between 192 214 c || between 216 222 c.

Definition lower_char (c : ascii) : ascii :=
  if is_upper c then ascii_of_N (code c + 32) else c.

Fixpoint lower (s : string) : string :=
  match s with
  | EmptyString => EmptyString
  | String c r => String (lower_char c) (lower r)
  end.

(** [str.isspace] on one code point: TAB-CR, FS-US, SPACE, NEL, NBSP. *)
Definition isspace (c : ascii) : bool :=
  between 9 13 c || between 28 32 c || (code c =? 133)%N || (code c =? 160)%N.

Fixpoint lstrip (s : string) : string :=
  match s with
  | EmptyString => EmptyString
  | String c r => if isspace c then lstrip r else s
  end.

Fixpoint rstrip (s : string) : string :=
  match s with
  | EmptyString => EmptyString
  | String c r =>
      match rstrip r with
      | EmptyString => if isspace c then EmptyString else String c EmptyString
      | r' => String c r'
      end
  end.

(** [s.strip()] *)
Definition strip (s : string) : string := rstrip (lstrip s).

(** Truth value of a [str]: the empty string is false. *)
Definition truthy (s : string) : bool :=
  match s with EmptyString => false | String _ _ => true end.

(** Truth value of an optional [str]: [None] and the empty string are false. *)
Definition truthy_opt (o : option string) : bool :=
  match o with Some s => truthy s | None => false end.

(** [re.sub(r'[^a-z0-9]', '', s)]: keep the characters a-z and 0-9. *)
Definition is_simple (c : ascii) : bool := between 97 122 c || between 48 57 c.

Fixpoint re_sub_non_alnum (s : string) : string :=
  match s with
  | EmptyString => EmptyString
  | String c r =>
      if is_simple c then String c (re_sub_non_alnum r) else re_sub_non_alnum r
  end.

(** [s.rfind(c)], with -1 when [c] does not occur; [i] is the index of
    the first character of [s] in the whole text. *)
Fixpoint rfind_from (c : ascii) (s : string) (i : Z) (found : Z) : Z :=
  match s with
  | EmptyString => found
  | String d r => rfind_from c r (i + 1) (if Ascii.eqb d c then i else found)
  end.

Definition rfind (c : ascii) (s : string) : Z := rfind_from c s 0 (-1).

(** [s[i:i+1]] as an optional character, [s[:i]] and [s[i:]] for [0 <= i]. *)
Definition char_at (s : string) (i : Z) : option ascii :=
  if (i <? 0)%Z then None else String.get (Z.to_nat i) s.

Definition slice_to (s : string) (i : Z) : string :=
  String.substring 0 (Z.to_nat i) s.

Definition slice_from (s : string) (i : Z) : string :=
  String.substring (Z.to_nat i) (String.length s - Z.to_nat i) s.

(** The loop of [genericpath._splitext] that skips leading dots: it looks
    for a character other than the dot in [p[filenameIndex:dotIndex]]. *)
Fixpoint has_non_dot (p : string) (filenameIndex : Z) (steps : nat) : bool :=
  match steps with
  | O => false
  | S k =>
      match char_at p filenameIndex with
      | Some c =>
          if Ascii.eqb c "."%char then has_non_dot p (filenameIndex + 1) k
          else true
      | None => true
      end
  end.

(** [os.path.splitext] of [posixpath]: the extension starts at the last dot
    of the last path component, unless that component has only leading
    dots before it. *)
Definition splitext (p : string) : string * string :=
  let sepIndex := rfind "/"%char p in
  let dotIndex := rfind "."%char p in
  if (sepIndex <? dotIndex)%Z
     && has_non_dot p (sepIndex + 1) (Z.to_nat (dotIndex - (sepIndex + 1)))
  then (slice_to p dotIndex, slice_from p dotIndex)
  else (p, EmptyString).

End PyStr.

(** ** Dictionaries in source order *)

Definition Dict := list (string * string).

(** [d.get(k)] *)
Fixpoint dict_get (d : Dict) (k : string) : option string :=
  match d with
  | [] => None
  | (k', v) :: rest => if String.eqb k' k then Some v else dict_get rest k
  end.

(** [k in d] *)
Definition dict_mem (d : Dict) (k : string) : bool :=
  match dict_get d k with Some _ => true | None => false end.

(** Lines 122-150. *)
Definition EXTENSION_TO_LANG : Dict :=
  [ (".py", "python"); (".js", "javascript"); (".java", "java"); (".c", "c");
    (".cpp", "cpp"); (".cc", "cpp"); (".cxx", "cpp"); (".cs", "csharp");
    (".go", "go"); (".rb", "ruby"); (".php", "php"); (".rs", "rust");
    (".ts", "typescript"); (".kt", "kotlin"); (".swift", "swift");
    (".scala", "scala"); (".pl", "perl"); (".r", "r"); (".sh", "bash");
    (".html", "html"); (".css", "css"); (".sql", "sql"); (".json", "json");
    (".xml", "xml"); (".yaml", "yaml"); (".yml", "yaml"); (".md", "markdown") ].

(** Lines 164-204. *)
Definition pygments_to_lang : Dict :=
  [ ("python", "python"); ("py", "python"); ("python3", "python");
    ("javascript", "javascript"); ("js", "javascript"); ("java", "java");
    ("c", "c"); ("c++", "cpp"); ("cpp", "cpp"); ("c#", "csharp");
    ("csharp", "csharp"); ("c-sharp", "csharp"); ("c# (c-sharp)", "csharp");
    ("go", "go"); ("golang", "go"); ("ruby", "ruby"); ("rb", "ruby");
    ("php", "php"); ("rust", "rust"); ("typescript", "typescript");
    ("ts", "typescript"); ("kotlin", "kotlin"); ("swift", "swift");
    ("scala", "scala"); ("perl", "perl"); ("r", "r"); ("bash", "bash");
    ("sh", "bash"); ("shell", "bash"); ("html", "html"); ("xml+html", "html");
    ("css", "css"); ("sql", "sql"); ("json", "json"); ("xml", "xml");
    ("yaml", "yaml"); ("yml", "yaml"); ("markdown", "markdown");
    ("md", "markdown") ].

(** ** Language detection (lines 119-220) *)

(** What [guess_lexer(text)] does: it returns a lexer, of which the script
    reads the [name], or it raises [ClassNotFound]. *)
Inductive GuessResult : Type :=
| Lexer (name : string)
| ClassNotFound.

(** The file object of [st.file_uploader] once line 95 has decoded it: its
    [name] and its text; the upload before that is a [RawUpload]. *)
Record UploadedFile : Type := mkUploadedFile {
  name : string;
  uploaded_text : string
}.

(** Calls to the collaborators. *)
Inductive Call : Type :=
| CallGuessLexer (text : string)
| CallChain (code : string) (language : option string)
| CallExplainChain (code : string) (language : option string).

(** Lines 212-215: the first entry, in source order, whose key equals
    [simple_name] once lower-cased and stripped of special characters. *)
Fixpoint first_simple_match (d : Dict) (simple_name : string) : option string :=
  match d with
  | [] => None
  | (key, val) :: rest =>
      if String.eqb (PyStr.re_sub_non_alnum (PyStr.lower key)) simple_name
      then Some val
      else first_simple_match rest simple_name
  end.

(** Lines 206-218, from [pygments_name] on: direct match, lower-cased match,
    match modulo special characters, and the name itself as the fallback. *)
Definition map_pygments_name (pygments_name : string) : option string :=
  let detected_language := dict_get pygments_to_lang pygments_name in
  let detected_language :=
    if negb (PyStr.truthy_opt detected_language)
    then dict_get pygments_to_lang (PyStr.lower pygments_name)
    else detected_language in
  let detected_language :=
    if negb (PyStr.truthy_opt detected_language)
    then
      let simple_name := PyStr.re_sub_non_alnum (PyStr.lower pygments_name) in
      match first_simple_match pygments_to_lang simple_name with
      | Some val => Some val
      | None => detected_language
      end
    else detected_language in
  if negb (PyStr.truthy_opt detected_language)
  then Some pygments_name
  else detected_language.

(** Line 162 followed by lines 206-218: the normalization of a lexer name. *)
Definition normalize (lexer_name : string) : option string :=
  map_pygments_name (PyStr.lower lexer_name).

(** Lines 152-157. *)
Definition language_by_extension (uploaded_file : option UploadedFile)
  : option string :=
  match uploaded_file with
  | Some f =>
      if PyStr.truthy (name f)
      then
        let ext := PyStr.lower (snd (PyStr.splitext (name f))) in
        if dict_mem EXTENSION_TO_LANG ext
        then dict_get EXTENSION_TO_LANG ext
        else None
      else None
  | None => None
  end.

Section Resolver.

(** [guess_lexer] is [None] when the import of lines 9-14 failed. *)
Variable guess_lexer : option (string -> GuessResult).

(** Lines 161-218, the body of the [try]: [None] stands for the raised
    [ClassNotFound], which leaves the body at the call of line 161. *)
Definition try_guess (guess : string -> GuessResult) (messy_code : string)
  : option (option string) :=
  match guess messy_code with
  | Lexer lexer_name => Some (normalize lexer_name)
  | ClassNotFound => None
  end.

(** Lines 159-220: the result and the calls made to the heuristic. *)
Definition language_by_lexer (detected_language : option string)
           (messy_code : string) : option string * list Call :=
  match guess_lexer with
  | Some guess =>
      if negb (PyStr.truthy_opt detected_language) && PyStr.truthy messy_code
      then
        match try_guess guess messy_code with
        | Some detected => (detected, [CallGuessLexer messy_code])
        | None (* except ClassNotFound *) => (None, [CallGuessLexer messy_code])
        end
      else (detected_language, [])
  | None => (detected_language, [])
  end.

(** Lines 119-220 as one function of the uploaded file and the code text. *)
Definition resolveLanguage (uploaded_file : option UploadedFile)
           (messy_code : string) : option string * list Call :=
  language_by_lexer (language_by_extension uploaded_file) messy_code.

End Resolver.

(** ** Session state (lines 35-45 and 283-285) *)

(** One element of [st.session_state.history] (lines 293-297). *)
Record HistoryEntry : Type := mkEntry {
  messy : string;
  cleaned : string;
  language : option string
}.

(** The four keys of [st.session_state] that the script owns.  A key that
    is absent is installed with its default before its first use, so a
    session is described by the four values. *)
Record SessionState : Type := mkSession {
  history : list HistoryEntry;
  clear_triggered : bool;
  text_input_value : string;
  show_explanation_only : bool
}.

(** The defaults of lines 36-45 and 284-285. *)
Definition fresh_session : SessionState :=
  mkSession [] false "" false.

Definition set_history (h : list HistoryEntry) (s : SessionState) : SessionState :=
  mkSession h (clear_triggered s) (text_input_value s) (show_explanation_only s).

Definition set_clear_triggered (b : bool) (s : SessionState) : SessionState :=
  mkSession (history s) b (text_input_value s) (show_explanation_only s).

Definition set_text_input_value (t : string) (s : SessionState) : SessionState :=
  mkSession (history s) (clear_triggered s) t (show_explanation_only s).

Definition set_show_explanation_only (b : bool) (s : SessionState) : SessionState :=
  mkSession (history s) (clear_triggered s) (text_input_value s) b.

(** [history[-1]]; [None] stands for the [IndexError] of an empty list. *)
Definition last_entry (h : list HistoryEntry) : option HistoryEntry :=
  match h with
  | [] => None
  | e :: rest => Some (last rest e)
  end.

(** [history.pop()] and [history.append(e)]. *)
Definition pop (h : list HistoryEntry) : list HistoryEntry := removelast h.

Definition append (h : list HistoryEntry) (e : HistoryEntry) : list HistoryEntry :=
  h ++ [e].

(** The [on_change] callback of line 116, which Streamlit runs with the new
    content of the text area before it runs the script again. *)
Definition on_change (main_code_input : string) (s : SessionState) : SessionState :=
  set_text_input_value main_code_input s.

(** ** What one run of the script receives and what it shows *)

(** What [chain.invoke] returns: a dict with a ["text"] entry, or something
    else, which the script then uses as it is (lines 291, 305 and 357). *)
Inductive ChainResult : Type :=
| DictWithText (text : string)
| Plain (result : string).

Definition text_of (r : ChainResult) : string :=
  match r with
  | DictWithText text => text
  | Plain result => result
  end.

(** An invocation either returns or raises. *)
Inductive Invocation : Type :=
| Returns (r : ChainResult)
| Raises.

(** The widgets of one run: the uploaded file, the text area (which answers
    the [value] it is given with the text it holds) and the buttons. *)
Record Inputs : Type := mkInputs {
  uploaded_file : option UploadedFile;
  st_text_area : string -> string;
  optimize_btn : bool;
  explain_btn : bool;
  revert_btn : bool;
  clear_btn : bool;
  explain_optimized_btn : bool
}.

Inductive Message : Type :=
| NoPreviousVersion     (* st.warning, line 257 *)
| RevertedToPrevious.   (* st.success, line 266 *)

Inductive Event : Type :=
| External (c : Call)
| TextArea (value : string)                                            (* line 111 *)
| Notice (m : Message)
| Explanation (text : string)                                          (* lines 306-309 *)
| Comparison (original optimized : string) (lang : option string)      (* lines 325-334 *)
| Download (data file_name : string)                                   (* lines 342-348 *)
| OptimizedExplanation (text : string).                                (* lines 358-359 *)

(** An event together with the session state at the time it happens. *)
Definition Obs : Type := Event * SessionState.

(** How a run ends before the last line: [st.rerun()], [st.stop()], or an
    exception that nothing catches. *)
Inductive Signal : Type :=
| Rerun
| Stop
| Exception.

Inductive Outcome (A : Type) : Type :=
| Done (a : A)
| Interrupted (sg : Signal).

Arguments Done {A} a.
Arguments Interrupted {A} sg.

(** ** The script monad: session state, trace, interruption *)

Definition Script (A : Type) : Type :=
  SessionState -> Outcome A * SessionState * list Obs.

Definition ret {A} (a : A) : Script A :=
  fun s => (Done a, s, []).

Definition bind {A B} (m : Script A) (k : A -> Script B) : Script B :=
  fun s =>
    match m s with
    | (Done a, s1, t1) =>
        match k a s1 with
        | (o, s2, t2) => (o, s2, t1 ++ t2)
        end
    | (Interrupted sg, s1, t1) => (Interrupted sg, s1, t1)
    end.

Definition get : Script SessionState :=
  fun s => (Done s, s, []).

Definition modify (f : SessionState -> SessionState) : Script unit :=
  fun s => (Done tt, f s, []).

Definition emit (e : Event) : Script unit :=
  fun s => (Done tt, s, [(e, s)]).

Definition interrupt {A} (sg : Signal) : Script A :=
  fun s => (Interrupted sg, s, []).

Definition when (b : bool) (m : Script unit) : Script unit :=
  if b then m else ret tt.

Fixpoint emit_calls (calls : list Call) : Script unit :=
  match calls with
  | [] => ret tt
  | c :: rest => bind (emit (External c)) (fun _ => emit_calls rest)
  end.

Declare Scope script_scope.
Delimit Scope script_scope with script.
Notation "x <- m ;; k" := (bind m (fun x => k))
  (at level 61, m at next level, right associativity) : script_scope.
Notation "m ;; k" := (bind m (fun _ => k))
  (at level 61, right associativity) : script_scope.

Definition outcome_of {A} (r : Outcome A * SessionState * list Obs) : Outcome A :=
  fst (fst r).

Definition state_of {A} (r : Outcome A * SessionState * list Obs) : SessionState :=
  snd (fst r).

Definition trace_of {A} (r : Outcome A * SessionState * list Obs) : list Obs :=
  snd r.

(** ** The script, handler by handler *)

(** The local variables of the script that the handlers read and assign;
    [optimized] is unbound until a handler assigns it. *)
Record Locals : Type := mkLocals {
  messy_code : string;
  detected_language : option string;
  optimized : option string
}.

(** [str(x)] inside the f-string of line 345. *)
Definition str_of_language (l : option string) : string :=
  match l with
  | Some tag => tag
  | None => "None"
  end.

(** Lines 100-103, with [uploaded_code] of lines 94-97. *)
Definition get_initial_code (inp : Inputs) (s : SessionState) : string :=
  match uploaded_file inp with
  | Some f =>
      if PyStr.truthy (uploaded_text f) then uploaded_text f
      else text_input_value s
  | None => text_input_value s
  end.

(** The condition of lines 314-319 and the entry that lines 320-323 then
    display. *)
Definition comparison_view (s : SessionState) : option HistoryEntry :=
  match last_entry (history s) with
  | Some last =>
      if PyStr.truthy (PyStr.strip (cleaned last))
         && PyStr.truthy (PyStr.strip (messy last))
         && negb (show_explanation_only s)
      then Some last
      else None
  | None => None
  end.

Section Run.

Local Open Scope script_scope.

Variable guess_lexer : option (string -> GuessResult).
Variable chain : string -> option string -> Invocation.
Variable explain_chain : string -> option string -> Invocation.

(** Lines 109-117: the text area is created with its [value] and answers
    with [messy_code]. *)
Definition code_input (inp : Inputs) : Script string :=
  s <- get ;;
  let value := if clear_triggered s then "" else get_initial_code inp s in
  emit (TextArea value) ;;
  ret (st_text_area inp value).

(** Lines 119-220. *)
Definition detect_language (inp : Inputs) (messy_code : string)
  : Script (option string) :=
  let (detected, calls) := resolveLanguage guess_lexer (uploaded_file inp) messy_code in
  emit_calls calls ;;
  ret detected.

(** Lines 255-266. *)
Definition revert_handler (inp : Inputs) (loc : Locals) : Script Locals :=
  s <- get ;;
  when (revert_btn inp && (length (history s) <=? 1)%nat) (emit (Notice NoPreviousVersion)) ;;
  s <- get ;;
  if revert_btn inp && (1 <? length (history s))%nat
  then
    modify (fun s => set_history (pop (history s)) s) ;;
    s <- get ;;
    match last_entry (history s) with
    | Some prev =>
        emit (Notice RevertedToPrevious) ;;
        ret (mkLocals (messy prev) (language prev) (Some (cleaned prev)))
    | None => interrupt Exception
    end
  else ret loc.

(** Lines 268-277. *)
Definition clear_handler (inp : Inputs) : Script unit :=
  if clear_btn inp
  then
    modify (set_history []) ;;
    modify (set_text_input_value "") ;;
    modify (set_clear_triggered true) ;;
    interrupt Rerun
  else ret tt.

(** Lines 279-281. *)
Definition reset_clear_flag : Script unit :=
  s <- get ;;
  when (clear_triggered s) (modify (set_clear_triggered false)).

(** Lines 287-298. *)
Definition optimize_handler (inp : Inputs) (loc : Locals) : Script Locals :=
  if optimize_btn inp && PyStr.truthy (PyStr.strip (messy_code loc))
  then
    emit (External (CallChain (messy_code loc) (detected_language loc))) ;;
    match chain (messy_code loc) (detected_language loc) with
    | Returns result =>
        let optimized := text_of result in
        modify (fun s =>
                  set_history
                    (append (history s)
                            (mkEntry (messy_code loc) optimized (detected_language loc)))
                    s) ;;
        modify (set_show_explanation_only false) ;;
        ret (mkLocals (messy_code loc) (detected_language loc) (Some optimized))
    | Raises => interrupt Exception
    end
  else ret loc.

(** Lines 300-311. *)
Definition explain_handler (inp : Inputs) (loc : Locals) : Script unit :=
  if explain_btn inp && PyStr.truthy (PyStr.strip (messy_code loc))
  then
    modify (set_show_explanation_only true) ;;
    emit (External (CallExplainChain (messy_code loc) (detected_language loc))) ;;
    match explain_chain (messy_code loc) (detected_language loc) with
    | Returns explanation =>
        emit (Explanation (text_of explanation)) ;;
        modify (set_show_explanation_only false) ;;
        interrupt Stop
    | Raises => interrupt Exception
    end
  else ret tt.

(** Lines 313-359. *)
Definition comparison_section (inp : Inputs) (loc : Locals) : Script Locals :=
  s <- get ;;
  match comparison_view s with
  | Some last =>
      let loc := mkLocals (messy_code loc) (language last) (Some (cleaned last)) in
      emit (Comparison (messy last) (cleaned last) (language last)) ;;
      emit (Download (cleaned last)
                     ("optimized_code." ++ str_of_language (language last))) ;;
      if explain_optimized_btn inp
      then
        emit (External (CallExplainChain (cleaned last) (language last))) ;;
        match explain_chain (cleaned last) (language last) with
        | Returns explanation =>
            emit (OptimizedExplanation (text_of explanation)) ;;
            ret loc
        | Raises => interrupt Exception
        end
      else ret loc
  | None => ret loc
  end.

(** Lines 243-359: the handlers in the order of the script. *)
Definition handlers (inp : Inputs) (loc : Locals) : Script Locals :=
  loc <- revert_handler inp loc ;;
  clear_handler inp ;;
  reset_clear_flag ;;
  loc <- optimize_handler inp loc ;;
  explain_handler inp loc ;;
  comparison_section inp loc.

(** One run of the script, from line 84 to the end. *)
Definition script (inp : Inputs) : Script Locals :=
  messy_code <- code_input inp ;;
  detected_language <- detect_language inp messy_code ;;
  handlers inp (mkLocals messy_code detected_language None).

End Run.

(** ** The operations of the session controller

    An operation is a run of the script in which the user has clicked one
    button.  [click] gives the inputs of such a run: the widgets as they
    are, and exactly one button reported as pressed. *)

Inductive Button : Type :=
| NoButton
| OptimizeCode
| ExplainCode
| Revert
| ClearAll.

Definition click (b : Button) (file : option UploadedFile)
           (text_area : string -> string) : Inputs :=
  mkInputs file text_area
           (match b with OptimizeCode => true | _ => false end)
           (match b with ExplainCode => true | _ => false end)
           (match b with Revert => true | _ => false end)
           (match b with ClearAll => true | _ => false end)
           false.

(** The text that the text area answers with in a run from [s], and the
    language that lines 119-220 detect for it. *)
Definition pasted_code (inp : Inputs) (s : SessionState) : string :=
  st_text_area inp (if clear_triggered s then "" else get_initial_code inp s).

Definition resolved (guess_lexer : option (string -> GuessResult))
           (inp : Inputs) (s : SessionState) : option string :=
  fst (resolveLanguage guess_lexer (uploaded_file inp) (pasted_code inp s)).

(** What a run records before the first handler: the text area and the
    calls of the language detection. *)
Definition entry_trace (guess_lexer : option (string -> GuessResult))
           (inp : Inputs) (s : SessionState) : list Obs :=
  (TextArea (if clear_triggered s then "" else get_initial_code inp s), s)
  :: map (fun c => (External c, s))
         (snd (resolveLanguage guess_lexer (uploaded_file inp) (pasted_code inp s))).

(** The local variables with which the handlers start. *)
Definition entry_locals (guess_lexer : option (string -> GuessResult))
           (inp : Inputs) (s : SessionState) : Locals :=
  mkLocals (pasted_code inp s) (resolved guess_lexer inp s) None.

(** The entries of a history all hold an original code that is not blank. *)
Definition originals_not_blank (h : list HistoryEntry) : Prop :=
  Forall (fun e => PyStr.truthy (PyStr.strip (messy e)) = true) h.

(** The sessions that the script can produce: from the fresh session, by
    runs of the script on any inputs and with any behaviour of the
    collaborators, and by typing into the text area. *)
Inductive reachable : SessionState -> Prop :=
| reach_fresh : reachable fresh_session
| reach_run guess_lexer chain explain_chain inp s :
    reachable s ->
    reachable (state_of (script guess_lexer chain explain_chain inp s))
| reach_typed text s :
    reachable s ->
    reachable (on_change text s).

(** A script keeps a property of the session when every run from a session
    that has it ends, however it ends, in a session that has it. *)
Definition keeps (I : SessionState -> Prop) {A} (m : Script A) : Prop :=
  forall s, I s -> I (state_of (m s)).

(** A script only emits events of one kind when every event of every run
    is of that kind. *)
Definition emits_only (P : Event -> bool) {A} (m : Script A) : Prop :=
  forall s, Forall (fun o => P (fst o) = true) (trace_of (m s)).

(** A session whose only entry holds a blank cleaned code, as an optimize
    run leaves it when the chain returns the empty text. *)
Definition blank_result_session : SessionState :=
  mkSession [mkEntry "x = 1" "" None] false "" false.

(** The events of a trace, without the states. *)
Definition events (t : list Obs) : list Event := map fst t.

Definition is_completion_call (e : Event) : bool :=
  match e with
  | External (CallChain _ _) | External (CallExplainChain _ _) => true
  | _ => false
  end.

Definition is_guess_call (e : Event) : bool :=
  match e with
  | External (CallGuessLexer _) => true
  | _ => false
  end.

Definition not_guess_call (e : Event) : bool := negb (is_guess_call e).

(** A table whose values are all non-empty strings only gives truthy tags. *)
Definition values_truthy (d : Dict) : bool :=
  forallb (fun kv => PyStr.truthy (snd kv)) d.

(** ** Further definitions for the properties *)

(** Lines 31-33: the languages that the highlighting supports. *)
Definition LANGUAGES : list string :=
  [ "python"; "javascript"; "java"; "c"; "cpp"; "csharp"; "go"; "ruby"; "php";
    "rust"; "typescript"; "kotlin"; "swift"; "scala"; "perl"; "r"; "bash";
    "html"; "css"; "sql"; "json"; "xml"; "yaml"; "markdown" ].

(** [tag in LANGUAGES] *)
Definition is_language (tag : string) : bool :=
  existsb (String.eqb tag) LANGUAGES.

(** [c in s] for a character. *)
Fixpoint contains (c : ascii) (s : string) : bool :=
  match s with
  | EmptyString => false
  | String d r => Ascii.eqb d c || contains c r
  end.

(** The number of calls to the two chains in a trace. *)
Definition completion_calls (t : list Obs) : nat :=
  length (filter is_completion_call (events t)).

(** A script only records observations of one kind when every observation
    of every run, the event with the session at its time, is of that kind. *)
Definition observes (P : Obs -> Prop) {A} (m : Script A) : Prop :=
  forall s, Forall P (trace_of (m s)).

(** The history after lines 255-266: popped when the revert button is
    pressed and there is more than one entry, as it was otherwise. *)
Definition after_revert (inp : Inputs) (h : list HistoryEntry) : list HistoryEntry :=
  if revert_btn inp && (1 <? length h)%nat then pop h else h.

(** The inputs of a run in which only the button of the comparison
    section, of line 336, is pressed. *)
Definition click_explain_optimized (file : option UploadedFile)
           (text_area : string -> string) : Inputs :=
  mkInputs file text_area false false false false true.

Definition is_comparison_or_download (e : Event) : bool :=
  match e with
  | Comparison _ _ _ | Download _ _ => true
  | _ => false
  end.

(** What is rendered of the history, with the session at that time: a
    comparison and a download show the entry that lines 314-323 select
    from that session, and the download is named after its language. *)
Definition rendered_from_view (o : Obs) : Prop :=
  match fst o with
  | Comparison original optimized lang =>
      exists last,
        comparison_view (snd o) = Some last /\
        original = messy last /\ optimized = cleaned last /\ lang = language last
  | Download data file_name =>
      exists last,
        comparison_view (snd o) = Some last /\
        data = cleaned last /\
        file_name = ("optimized_code." ++ str_of_language (language last))%string
  | _ => True
  end.

(** ** The upload before it is decoded (lines 92-97) *)

(** The file as [st.file_uploader] gives it: its [name], and what
    [uploaded_file.read().decode("utf-8")] of line 95 does with its bytes:
    it returns the text, or it raises [UnicodeDecodeError], for which
    [None] stands. *)
Record RawUpload : Type := mkRawUpload {
  raw_name : string;
  read_decode : option string
}.

(** An upload on which line 95 raises. *)
Definition undecodable (upload : option RawUpload) : bool :=
  match upload with
  | Some u => match read_decode u with Some _ => false | None => true end
  | None => false
  end.

(** The widgets of [inp] with the uploader answering [f]. *)
Definition with_upload (f : option UploadedFile) (inp : Inputs) : Inputs :=
  mkInputs f (st_text_area inp) (optimize_btn inp) (explain_btn inp)
           (revert_btn inp) (clear_btn inp) (explain_optimized_btn inp).

(** One run of the script with the upload as the uploader gives it: lines
    92-97 decode it first, and an upload that does not decode ends the run
    at line 95, before the text area and every handler; the other widgets
    are those of [inp]. *)
Definition run_script (guess_lexer : option (string -> GuessResult))
           (chain explain_chain : string -> option string -> Invocation)
           (upload : option RawUpload) (inp : Inputs) : Script Locals :=
  match upload with
  | Some u =>
      match read_decode u with
      | Some text =>
          script guess_lexer chain explain_chain
                 (with_upload (Some (mkUploadedFile (raw_name u) text)) inp)
      | None => interrupt Exception
      end
  | None => script guess_lexer chain explain_chain (with_upload None inp)
  end.

(** A session whose first entry holds a blank cleaned code and whose second
    entry does not, and the chain whose two calls leave it. *)
Definition blank_for_first (code : string) (_ : option string) : Invocation :=
  if String.eqb code "x = 1"
  then Returns (DictWithText "")
  else Returns (DictWithText "y = 2  # two").

Definition blank_then_cleaned_session : SessionState :=
  mkSession [mkEntry "x = 1" "" None; mkEntry "y = 2" "y = 2  # two" None]
            false "" false.

(** * Properties *)

(** ** Strings and tables *)

Lemma lower_char_idem (c : ascii) :
  PyStr.lower_char (PyStr.lower_char c) = PyStr.lower_char c.
Proof.
  destruct c as [[] [] [] [] [] [] [] []]; reflexivity.
Qed.

Lemma lower_idem (s : string) : PyStr.lower (PyStr.lower s) = PyStr.lower s.
Proof.
  induction s as [|c r IH]; simpl.
  - reflexivity.
  - now rewrite lower_char_idem, IH.
Qed.

Lemma dict_get_truthy (d : Dict) (k v : string) :
  values_truthy d = true -> dict_get d k = Some v -> PyStr.truthy v = true.
Proof.
  induction d as [|[k' v'] rest IH]; simpl; intros Hd Hg.
  - discriminate.
  - apply andb_prop in Hd as [Hv Hrest].
    destruct (String.eqb k' k).
    + now inversion Hg; subst.
    + now apply IH.
Qed.

Lemma extension_tags_truthy : values_truthy EXTENSION_TO_LANG = true.
Proof. reflexivity. Qed.

Lemma alias_tags_truthy : values_truthy pygments_to_lang = true.
Proof. reflexivity. Qed.

(** The keys of the alias table are distinct, so the association list reads
    like the dict of the source, and they are in lower case already. *)
Lemma alias_keys_distinct : NoDup (map fst pygments_to_lang).
Proof.
  unfold pygments_to_lang; simpl.
  repeat (constructor; [simpl; intros H; repeat (destruct H as [H|H]; [discriminate H|]); exact H|]).
  constructor.
Qed.

Lemma extension_keys_distinct : NoDup (map fst EXTENSION_TO_LANG).
Proof.
  unfold EXTENSION_TO_LANG; simpl.
  repeat (constructor; [simpl; intros H; repeat (destruct H as [H|H]; [discriminate H|]); exact H|]).
  constructor.
Qed.

Lemma alias_keys_lower :
  forallb (fun kv => String.eqb (PyStr.lower (fst kv)) (fst kv)) pygments_to_lang = true.
Proof. reflexivity. Qed.

(** ** The extension decides first *)

Lemma language_by_extension_known (f : UploadedFile) (tag : string) :
  dict_get EXTENSION_TO_LANG (PyStr.lower (snd (PyStr.splitext (name f)))) = Some tag ->
  language_by_extension (Some f) = Some tag.
Proof.
  intros H. unfold language_by_extension.
  destruct (PyStr.truthy (name f)) eqn:En.
  - cbv zeta. unfold dict_mem. now rewrite H.
  - destruct (name f); [|discriminate En].
    vm_compute in H. discriminate H.
Qed.

(** ** Normalization of lexer names *)

(** On a name that is in lower case already, the second lookup of line 208
    repeats the first. *)
Lemma map_pygments_name_found (p tag : string) :
  dict_get pygments_to_lang p = Some tag ->
  map_pygments_name p = Some tag.
Proof.
  intros H. unfold map_pygments_name. cbv zeta. rewrite H.
  pose proof (dict_get_truthy _ _ alias_tags_truthy H) as Ht.
  destruct tag as [|c t]; [discriminate Ht|]. reflexivity.
Qed.

Lemma map_pygments_name_simple (p tag : string) :
  dict_get pygments_to_lang p = None ->
  dict_get pygments_to_lang (PyStr.lower p) = None ->
  first_simple_match pygments_to_lang (PyStr.re_sub_non_alnum (PyStr.lower p)) = Some tag ->
  PyStr.truthy tag = true ->
  map_pygments_name p = Some tag.
Proof.
  intros H1 H2 H3 Ht. unfold map_pygments_name. cbv zeta.
  rewrite H1. cbn [PyStr.truthy_opt negb]. rewrite H2.
  cbn [PyStr.truthy_opt negb]. rewrite H3.
  destruct tag as [|c t]; [discriminate Ht|]. reflexivity.
Qed.

Lemma map_pygments_name_fallback (p : string) :
  dict_get pygments_to_lang p = None ->
  dict_get pygments_to_lang (PyStr.lower p) = None ->
  first_simple_match pygments_to_lang (PyStr.re_sub_non_alnum (PyStr.lower p)) = None ->
  map_pygments_name p = Some p.
Proof.
  intros H1 H2 H3. unfold map_pygments_name. cbv zeta.
  rewrite H1. cbn [PyStr.truthy_opt negb]. rewrite H2.
  cbn [PyStr.truthy_opt negb]. rewrite H3. reflexivity.
Qed.

(** Every key of the alias table is found by the direct lookup. *)
Lemma alias_key_found (key tag : string) :
  In (key, tag) pygments_to_lang -> dict_get pygments_to_lang key = Some tag.
Proof.
  unfold pygments_to_lang. intros Hin.
  repeat (destruct Hin as [Hin|Hin]; [inversion Hin; reflexivity|]).
  destruct Hin.
Qed.

(** The third stage finds the tag of every key but the two whose stripped
    form is that of the earlier key [c]. *)
Lemma alias_key_simple_match (key tag : string) :
  In (key, tag) pygments_to_lang ->
  key <> "c++" -> key <> "c#" ->
  first_simple_match pygments_to_lang (PyStr.re_sub_non_alnum (PyStr.lower key)) = Some tag.
Proof.
  unfold pygments_to_lang. intros Hin Hcpp Hcs.
  repeat (destruct Hin as [Hin|Hin];
          [inversion Hin; subst; first [reflexivity | now contradiction Hcpp | now contradiction Hcs]|]).
  destruct Hin.
Qed.

(** C6, as the code has it: a spelling of a table key in any letter case is
    normalized to the key's tag; a spelling that matches no key when
    lower-cased, but matches a key once both are stripped of
    non-alphanumeric characters, is normalized to that key's tag, for every
    key other than [c++] and [c#]. *)
Theorem C6_alias_normalization (key tag spelling : string) :
  In (key, tag) pygments_to_lang ->
  (PyStr.lower spelling = key -> normalize spelling = Some tag) /\
  (dict_get pygments_to_lang (PyStr.lower spelling) = None ->
   PyStr.re_sub_non_alnum (PyStr.lower spelling) = PyStr.re_sub_non_alnum (PyStr.lower key) ->
   key <> "c++" -> key <> "c#" ->
   normalize spelling = Some tag).
Proof.
  intros Hin. split.
  - intros Hl. unfold normalize. rewrite Hl.
    apply map_pygments_name_found. now apply alias_key_found.
  - intros Hnone Hs Hcpp Hcs. unfold normalize.
    apply map_pygments_name_simple.
    + exact Hnone.
    + now rewrite lower_idem.
    + rewrite lower_idem, Hs. now apply alias_key_simple_match.
    + apply (dict_get_truthy pygments_to_lang key alias_tags_truthy).
      now apply alias_key_found.
Qed.

(** The spellings of the specification, and one that needs the third stage. *)
Lemma C6_alias_normalization_witness :
  normalize "C++" = Some "cpp" /\ normalize "c++" = Some "cpp" /\
  normalize "Cpp" = Some "cpp" /\ normalize "C# (C-Sharp)" = Some "csharp" /\
  normalize "C_Sharp" = Some "csharp".
Proof.
  assert (Hcpp : In ("c++", "cpp") pygments_to_lang) by (vm_compute; tauto).
  assert (Hcpp' : In ("cpp", "cpp") pygments_to_lang) by (vm_compute; tauto).
  assert (Hcs : In ("c# (c-sharp)", "csharp") pygments_to_lang) by (vm_compute; tauto).
  assert (Hcs' : In ("c-sharp", "csharp") pygments_to_lang) by (vm_compute; tauto).
  refine (conj _ (conj _ (conj _ (conj _ _)))).
  - apply (proj1 (C6_alias_normalization "C++" Hcpp)). reflexivity.
  - apply (proj1 (C6_alias_normalization "c++" Hcpp)). reflexivity.
  - apply (proj1 (C6_alias_normalization "Cpp" Hcpp')). reflexivity.
  - apply (proj1 (C6_alias_normalization "C# (C-Sharp)" Hcs)). reflexivity.
  - apply (proj2 (C6_alias_normalization "C_Sharp" Hcs')).
    + reflexivity.
    + reflexivity.
    + discriminate.
    + discriminate.
Defined.

(** C6 as stated fails: [C ++] matches the key [c++] once both are
    stripped, and no key before that, yet it is normalized to [c], the tag
    of the first key whose stripped form is [c]. *)
Lemma C6_counterexample :
  In ("c++", "cpp") pygments_to_lang /\
  dict_get pygments_to_lang (PyStr.lower "C ++") = None /\
  PyStr.re_sub_non_alnum (PyStr.lower "C ++") = PyStr.re_sub_non_alnum (PyStr.lower "c++") /\
  normalize "C ++" = Some "c" /\
  normalize "C ++" <> Some "cpp".
Proof.
  repeat split; try reflexivity.
  - vm_compute; tauto.
  - discriminate.
Qed.

(** ** The fallback and the failure of the lexer guessing *)

Lemma language_by_lexer_consulted
      (guess : string -> GuessResult) (detected : option string) (messy_code : string) :
  PyStr.truthy_opt detected = false ->
  PyStr.truthy messy_code = true ->
  language_by_lexer (Some guess) detected messy_code
  = (match guess messy_code with
     | Lexer lexer_name => normalize lexer_name
     | ClassNotFound => None
     end, [CallGuessLexer messy_code]).
Proof.
  intros Hd Hc. unfold language_by_lexer, try_guess. rewrite Hd, Hc. simpl.
  now destruct (guess messy_code).
Qed.

(** X24: what line 218 returns: with no language from the file extension
    and a non-empty code text, a lexer name that matches no key of the
    alias table, neither when lower-cased nor when stripped of
    non-alphanumeric characters, comes back in lower case (line 162),
    after one call to the lexer guessing. *)
Theorem X24_fallback_is_the_lower_cased_name
        (guess : string -> GuessResult) (file : option UploadedFile)
        (messy_code lexer_name : string) :
  language_by_extension file = None ->
  PyStr.truthy messy_code = true ->
  guess messy_code = Lexer lexer_name ->
  dict_get pygments_to_lang (PyStr.lower lexer_name) = None ->
  first_simple_match pygments_to_lang
    (PyStr.re_sub_non_alnum (PyStr.lower lexer_name)) = None ->
  resolveLanguage (Some guess) file messy_code
  = (Some (PyStr.lower lexer_name), [CallGuessLexer messy_code]).
Proof.
  intros He Hc Hg Hget Hsimple. unfold resolveLanguage. rewrite He.
  rewrite language_by_lexer_consulted by easy. rewrite Hg.
  unfold normalize. rewrite map_pygments_name_fallback.
  - reflexivity.
  - exact Hget.
  - rewrite lower_idem. exact Hget.
  - rewrite lower_idem. exact Hsimple.
Qed.

(** Pasted text for which the lexer guessing answers with Pygments' plain
    text lexer. *)
Lemma X24_fallback_is_the_lower_cased_name_witness :
  resolveLanguage (Some (fun _ => Lexer "Text only")) None "hello world"
  = (Some "text only", [CallGuessLexer "hello world"]).
Proof.
  apply (@X24_fallback_is_the_lower_cased_name (fun _ => Lexer "Text only") None
           "hello world" "Text only"); reflexivity.
Defined.

(** C5: the code at the failing input.  The name [Text only] matches no
    key of the alias table at any of the three stages, and what lines
    162-218 return for it is not that name, as the comment of line 216
    announces, but [text only]. *)
Lemma C5_fallback_is_not_the_raw_name :
  language_by_extension None = None /\
  dict_get pygments_to_lang "Text only" = None /\
  dict_get pygments_to_lang (PyStr.lower "Text only") = None /\
  first_simple_match pygments_to_lang
    (PyStr.re_sub_non_alnum (PyStr.lower "Text only")) = None /\
  fst (resolveLanguage (Some (fun _ => Lexer "Text only")) None "hello world")
  = Some "text only" /\
  fst (resolveLanguage (Some (fun _ => Lexer "Text only")) None "hello world")
  <> Some "Text only".
Proof.
  repeat split; discriminate.
Qed.

(** ** Running the script *)

Lemma emit_calls_run (calls : list Call) (s : SessionState) :
  emit_calls calls s = (Done tt, s, map (fun c => (External c, s)) calls).
Proof.
  induction calls as [|c rest IH]; simpl.
  - reflexivity.
  - unfold bind, emit. now rewrite IH.
Qed.

(** A run is the entry of the script followed by the handlers. *)
Lemma script_run guess_lexer chain explain_chain (inp : Inputs) (s : SessionState) :
  script guess_lexer chain explain_chain inp s
  = match handlers chain explain_chain inp (entry_locals guess_lexer inp s) s with
    | (o, s', t) => (o, s', entry_trace guess_lexer inp s ++ t)
    end.
Proof.
  unfold script, entry_locals, entry_trace, resolved, pasted_code.
  unfold bind at 1. unfold code_input. unfold bind at 1. unfold get at 1.
  unfold bind at 1. unfold emit at 1. unfold ret at 1.
  unfold bind at 1. unfold detect_language.
  destruct (resolveLanguage guess_lexer (uploaded_file inp)
              (st_text_area inp (if clear_triggered s then "" else get_initial_code inp s)))
    as [detected calls].
  unfold bind at 1. rewrite emit_calls_run. unfold ret at 1.
  cbn [fst snd].
  destruct (handlers chain explain_chain inp _ s) as [[o s'] t].
  cbn [app]. now rewrite app_nil_r.
Qed.

Lemma script_state guess_lexer chain explain_chain (inp : Inputs) (s : SessionState) :
  state_of (script guess_lexer chain explain_chain inp s)
  = state_of (handlers chain explain_chain inp (entry_locals guess_lexer inp s) s).
Proof.
  rewrite script_run. now destruct (handlers _ _ _ _ _) as [[o s'] t].
Qed.

Lemma script_outcome guess_lexer chain explain_chain (inp : Inputs) (s : SessionState) :
  outcome_of (script guess_lexer chain explain_chain inp s)
  = outcome_of (handlers chain explain_chain inp (entry_locals guess_lexer inp s) s).
Proof.
  rewrite script_run. now destruct (handlers _ _ _ _ _) as [[o s'] t].
Qed.

Lemma script_trace guess_lexer chain explain_chain (inp : Inputs) (s : SessionState) :
  trace_of (script guess_lexer chain explain_chain inp s)
  = entry_trace guess_lexer inp s
    ++ trace_of (handlers chain explain_chain inp (entry_locals guess_lexer inp s) s).
Proof.
  rewrite script_run. now destruct (handlers _ _ _ _ _) as [[o s'] t].
Qed.

(** The comparison section when its own button is not pressed. *)
Lemma comparison_section_run explain_chain (inp : Inputs) (loc : Locals) (s : SessionState) :
  explain_optimized_btn inp = false ->
  comparison_section explain_chain inp loc s
  = match comparison_view s with
    | Some last =>
        (Done (mkLocals (messy_code loc) (language last) (Some (cleaned last))), s,
         [(Comparison (messy last) (cleaned last) (language last), s);
          (Download (cleaned last) ("optimized_code." ++ str_of_language (language last)), s)])
    | None => (Done loc, s, [])
    end.
Proof.
  intros Hb. unfold comparison_section, bind, get.
  destruct (comparison_view s) as [last|]; [|reflexivity].
  rewrite Hb. reflexivity.
Qed.

Lemma reset_clear_flag_run (s : SessionState) :
  reset_clear_flag s = (Done tt, set_clear_triggered false s, []).
Proof.
  destruct s as [h ct tv se]. unfold reset_clear_flag, bind, get, when.
  cbn. destruct ct; reflexivity.
Qed.

Lemma set_clear_triggered_same (s : SessionState) :
  clear_triggered s = false -> set_clear_triggered false s = s.
Proof. destruct s; simpl; intros ->; reflexivity. Qed.

(** ** The handlers, one case at a time *)

Section Handlers.

Variable chain : string -> option string -> Invocation.
Variable explain_chain : string -> option string -> Invocation.
Variable inp : Inputs.

Lemma bind_done {A B} (m : Script A) (k : A -> Script B) s a s1 t1 :
  m s = (Done a, s1, t1) ->
  bind m k s = match k a s1 with (o, s2, t2) => (o, s2, t1 ++ t2) end.
Proof. intros H. unfold bind. now rewrite H. Qed.

Lemma bind_interrupted {A B} (m : Script A) (k : A -> Script B) s sg s1 t1 :
  m s = (Interrupted sg, s1, t1) ->
  bind m k s = (Interrupted sg, s1, t1).
Proof. intros H. unfold bind. now rewrite H. Qed.

Lemma revert_handler_off loc s :
  revert_btn inp = false ->
  revert_handler inp loc s = (Done loc, s, []).
Proof.
  intros Hb. unfold revert_handler, bind, get, when. rewrite Hb. reflexivity.
Qed.

Lemma revert_handler_nothing loc s :
  revert_btn inp = true ->
  length (history s) <= 1 ->
  revert_handler inp loc s = (Done loc, s, [(Notice NoPreviousVersion, s)]).
Proof.
  intros Hb Hlen. unfold revert_handler, bind, get, when. rewrite Hb.
  cbn [andb].
  assert (H1 : (length (history s) <=? 1)%nat = true) by now apply Nat.leb_le.
  assert (H2 : (1 <? length (history s))%nat = false) by (apply Nat.ltb_ge; lia).
  rewrite H1. unfold emit. rewrite H2. reflexivity.
Qed.

Lemma last_entry_app (h : list HistoryEntry) (e : HistoryEntry) :
  last_entry (h ++ [e]) = Some e.
Proof.
  unfold last_entry. destruct h as [|x h]; simpl.
  - reflexivity.
  - f_equal. now rewrite last_last.
Qed.

Lemma pop_app (h : list HistoryEntry) (e : HistoryEntry) : pop (h ++ [e]) = h.
Proof. unfold pop. apply removelast_last. Qed.

Lemma revert_handler_pop loc s h prev cur :
  revert_btn inp = true ->
  history s = h ++ [prev; cur] ->
  revert_handler inp loc s
  = (Done (mkLocals (messy prev) (language prev) (Some (cleaned prev))),
     set_history (h ++ [prev]) s,
     [(Notice RevertedToPrevious, set_history (h ++ [prev]) s)]).
Proof.
  intros Hb Hh. unfold revert_handler, bind, get, when. rewrite Hb.
  cbn [andb].
  assert (Hlen : length (history s) = S (S (length h))).
  { rewrite Hh, length_app. simpl. lia. }
  assert (H1 : (length (history s) <=? 1)%nat = false) by (apply Nat.leb_gt; lia).
  assert (H2 : (1 <? length (history s))%nat = true) by (apply Nat.ltb_lt; lia).
  rewrite H1. unfold ret. rewrite H2. unfold modify.
  assert (Hpop : pop (history s) = h ++ [prev]).
  { rewrite Hh. change (h ++ [prev; cur]) with (h ++ [prev] ++ [cur]).
    rewrite app_assoc. apply pop_app. }
  rewrite Hpop. cbn [history set_history]. rewrite last_entry_app.
  unfold emit. reflexivity.
Qed.

Lemma clear_handler_off s :
  clear_btn inp = false -> clear_handler inp s = (Done tt, s, []).
Proof. intros Hb. unfold clear_handler. now rewrite Hb. Qed.

Lemma clear_handler_on s :
  clear_btn inp = true ->
  clear_handler inp s
  = (Interrupted Rerun, mkSession [] true "" (show_explanation_only s), []).
Proof. intros Hb. unfold clear_handler. rewrite Hb. reflexivity. Qed.

Lemma optimize_handler_off loc s :
  optimize_btn inp && PyStr.truthy (PyStr.strip (messy_code loc)) = false ->
  optimize_handler chain inp loc s = (Done loc, s, []).
Proof. intros Hb. unfold optimize_handler. now rewrite Hb. Qed.

Lemma optimize_handler_returns loc s result :
  optimize_btn inp = true ->
  PyStr.truthy (PyStr.strip (messy_code loc)) = true ->
  chain (messy_code loc) (detected_language loc) = Returns result ->
  optimize_handler chain inp loc s
  = (Done (mkLocals (messy_code loc) (detected_language loc) (Some (text_of result))),
     mkSession (append (history s)
                  (mkEntry (messy_code loc) (text_of result) (detected_language loc)))
               (clear_triggered s) (text_input_value s) false,
     [(External (CallChain (messy_code loc) (detected_language loc)), s)]).
Proof.
  intros Hb Hc Hr. unfold optimize_handler. rewrite Hb, Hc. cbn [andb].
  unfold bind, emit. rewrite Hr. reflexivity.
Qed.

Lemma optimize_handler_raises loc s :
  optimize_btn inp = true ->
  PyStr.truthy (PyStr.strip (messy_code loc)) = true ->
  chain (messy_code loc) (detected_language loc) = Raises ->
  optimize_handler chain inp loc s
  = (Interrupted Exception, s,
     [(External (CallChain (messy_code loc) (detected_language loc)), s)]).
Proof.
  intros Hb Hc Hr. unfold optimize_handler. rewrite Hb, Hc. cbn [andb].
  unfold bind, emit. rewrite Hr. reflexivity.
Qed.

Lemma explain_handler_off loc s :
  explain_btn inp && PyStr.truthy (PyStr.strip (messy_code loc)) = false ->
  explain_handler explain_chain inp loc s = (Done tt, s, []).
Proof. intros Hb. unfold explain_handler. now rewrite Hb. Qed.

Lemma explain_handler_returns loc s explanation :
  explain_btn inp = true ->
  PyStr.truthy (PyStr.strip (messy_code loc)) = true ->
  explain_chain (messy_code loc) (detected_language loc) = Returns explanation ->
  explain_handler explain_chain inp loc s
  = (Interrupted Stop, set_show_explanation_only false s,
     [(External (CallExplainChain (messy_code loc) (detected_language loc)),
       set_show_explanation_only true s);
      (Explanation (text_of explanation), set_show_explanation_only true s)]).
Proof.
  intros Hb Hc Hr. unfold explain_handler. rewrite Hb, Hc. cbn [andb].
  unfold bind, emit, modify. rewrite Hr. reflexivity.
Qed.

Lemma explain_handler_raises loc s :
  explain_btn inp = true ->
  PyStr.truthy (PyStr.strip (messy_code loc)) = true ->
  explain_chain (messy_code loc) (detected_language loc) = Raises ->
  explain_handler explain_chain inp loc s
  = (Interrupted Exception, set_show_explanation_only true s,
     [(External (CallExplainChain (messy_code loc) (detected_language loc)),
       set_show_explanation_only true s)]).
Proof.
  intros Hb Hc Hr. unfold explain_handler. rewrite Hb, Hc. cbn [andb].
  unfold bind, emit, modify. rewrite Hr. reflexivity.
Qed.

End Handlers.

(** ** The operations as runs of the handlers *)

Ltac run_step H := rewrite (@bind_done _ _ _ _ _ _ _ _ H); cbv beta.
Ltac run_stop H := rewrite (@bind_interrupted _ _ _ _ _ _ _ _ H); cbv beta.
Ltac session_fields :=
  cbn [history clear_triggered text_input_value show_explanation_only
       set_history set_clear_triggered set_text_input_value set_show_explanation_only
       messy cleaned language messy_code detected_language optimized app].

Lemma comparison_view_appended h e ct tv :
  comparison_view (mkSession (append h e) ct tv false)
  = if PyStr.truthy (PyStr.strip (cleaned e)) && PyStr.truthy (PyStr.strip (messy e))
    then Some e else None.
Proof.
  unfold comparison_view, append. cbn [history show_explanation_only].
  rewrite last_entry_app. cbn [negb]. now rewrite andb_true_r.
Qed.

Lemma comparison_view_clear_triggered b s :
  comparison_view (set_clear_triggered b s) = comparison_view s.
Proof. reflexivity. Qed.

Section Operations.

Variable chain : string -> option string -> Invocation.
Variable explain_chain : string -> option string -> Invocation.
Variable file : option UploadedFile.
Variable text_area : string -> string.

Lemma handlers_optimize (loc : Locals) (s : SessionState) result :
  PyStr.truthy (PyStr.strip (messy_code loc)) = true ->
  chain (messy_code loc) (detected_language loc) = Returns result ->
  let entry := mkEntry (messy_code loc) (text_of result) (detected_language loc) in
  let s1 := mkSession (append (history s) entry) false (text_input_value s) false in
  let call := (External (CallChain (messy_code loc) (detected_language loc)),
               set_clear_triggered false s) in
  let loc1 := mkLocals (messy_code loc) (detected_language loc) (Some (text_of result)) in
  handlers chain explain_chain (click OptimizeCode file text_area) loc s
  = if PyStr.truthy (PyStr.strip (text_of result))
    then (Done loc1, s1,
          [call;
           (Comparison (messy_code loc) (text_of result) (detected_language loc), s1);
           (Download (text_of result)
                     ("optimized_code." ++ str_of_language (detected_language loc)), s1)])
    else (Done loc1, s1, [call]).
Proof.
  intros Hc Hr entry s1 call loc1. unfold handlers.
  run_step (revert_handler_off (click OptimizeCode file text_area) loc s eq_refl).
  run_step (clear_handler_off (click OptimizeCode file text_area) s eq_refl).
  run_step (reset_clear_flag_run s).
  run_step (optimize_handler_returns chain (click OptimizeCode file text_area) loc
              (set_clear_triggered false s) eq_refl Hc Hr).
  run_step (explain_handler_off explain_chain (click OptimizeCode file text_area)
              loc1 (mkSession (append (history s) entry) false (text_input_value s) false)
              eq_refl).
  rewrite comparison_section_run by reflexivity.
  subst entry s1 call loc1.
  session_fields. rewrite comparison_view_appended. session_fields.
  rewrite Hc, andb_true_r.
  destruct (PyStr.truthy (PyStr.strip (text_of result))); reflexivity.
Qed.

Lemma handlers_optimize_raises (loc : Locals) (s : SessionState) :
  PyStr.truthy (PyStr.strip (messy_code loc)) = true ->
  chain (messy_code loc) (detected_language loc) = Raises ->
  handlers chain explain_chain (click OptimizeCode file text_area) loc s
  = (Interrupted Exception, set_clear_triggered false s,
     [(External (CallChain (messy_code loc) (detected_language loc)),
       set_clear_triggered false s)]).
Proof.
  intros Hc Hr. unfold handlers.
  run_step (revert_handler_off (click OptimizeCode file text_area) loc s eq_refl).
  run_step (clear_handler_off (click OptimizeCode file text_area) s eq_refl).
  run_step (reset_clear_flag_run s).
  run_stop (optimize_handler_raises chain (click OptimizeCode file text_area) loc
              (set_clear_triggered false s) eq_refl Hc Hr).
  reflexivity.
Qed.

(** A run in which no handler acts: what is left is the comparison section. *)
Lemma handlers_idle (b : Button) (loc : Locals) (s : SessionState) :
  revert_btn (click b file text_area) = false ->
  clear_btn (click b file text_area) = false ->
  optimize_btn (click b file text_area)
    && PyStr.truthy (PyStr.strip (messy_code loc)) = false ->
  explain_btn (click b file text_area)
    && PyStr.truthy (PyStr.strip (messy_code loc)) = false ->
  handlers chain explain_chain (click b file text_area) loc s
  = match comparison_view s with
    | Some last =>
        (Done (mkLocals (messy_code loc) (language last) (Some (cleaned last))),
         set_clear_triggered false s,
         [(Comparison (messy last) (cleaned last) (language last),
           set_clear_triggered false s);
          (Download (cleaned last) ("optimized_code." ++ str_of_language (language last)),
           set_clear_triggered false s)])
    | None => (Done loc, set_clear_triggered false s, [])
    end.
Proof.
  intros Hr Hc Ho He. unfold handlers.
  run_step (revert_handler_off (click b file text_area) loc s Hr).
  run_step (clear_handler_off (click b file text_area) s Hc).
  run_step (reset_clear_flag_run s).
  run_step (optimize_handler_off chain (click b file text_area) loc
              (set_clear_triggered false s) Ho).
  run_step (explain_handler_off explain_chain (click b file text_area) loc
              (set_clear_triggered false s) He).
  rewrite comparison_section_run by now destruct b.
  rewrite comparison_view_clear_triggered.
  destruct (comparison_view s); reflexivity.
Qed.

Lemma handlers_revert_nothing (loc : Locals) (s : SessionState) :
  length (history s) <= 1 ->
  handlers chain explain_chain (click Revert file text_area) loc s
  = match comparison_view s with
    | Some last =>
        (Done (mkLocals (messy_code loc) (language last) (Some (cleaned last))),
         set_clear_triggered false s,
         [(Notice NoPreviousVersion, s);
          (Comparison (messy last) (cleaned last) (language last),
           set_clear_triggered false s);
          (Download (cleaned last) ("optimized_code." ++ str_of_language (language last)),
           set_clear_triggered false s)])
    | None => (Done loc, set_clear_triggered false s, [(Notice NoPreviousVersion, s)])
    end.
Proof.
  intros Hlen. unfold handlers.
  run_step (revert_handler_nothing (click Revert file text_area) loc s eq_refl Hlen).
  run_step (clear_handler_off (click Revert file text_area) s eq_refl).
  run_step (reset_clear_flag_run s).
  run_step (optimize_handler_off chain (click Revert file text_area) loc
              (set_clear_triggered false s) eq_refl).
  run_step (explain_handler_off explain_chain (click Revert file text_area) loc
              (set_clear_triggered false s) eq_refl).
  rewrite comparison_section_run by reflexivity.
  rewrite comparison_view_clear_triggered.
  destruct (comparison_view s); reflexivity.
Qed.

Lemma handlers_revert_pop (loc : Locals) (s : SessionState) h prev cur :
  history s = h ++ [prev; cur] ->
  let s1 := mkSession (h ++ [prev]) false (text_input_value s) (show_explanation_only s) in
  let loc1 := mkLocals (messy prev) (language prev) (Some (cleaned prev)) in
  handlers chain explain_chain (click Revert file text_area) loc s
  = match comparison_view s1 with
    | Some _ =>
        (Done loc1, s1,
         [(Notice RevertedToPrevious, set_history (h ++ [prev]) s);
          (Comparison (messy prev) (cleaned prev) (language prev), s1);
          (Download (cleaned prev) ("optimized_code." ++ str_of_language (language prev)),
           s1)])
    | None => (Done loc1, s1, [(Notice RevertedToPrevious, set_history (h ++ [prev]) s)])
    end.
Proof.
  intros Hh s1 loc1. unfold handlers.
  run_step (@revert_handler_pop (click Revert file text_area) loc s h prev cur eq_refl Hh).
  run_step (clear_handler_off (click Revert file text_area)
              (set_history (h ++ [prev]) s) eq_refl).
  run_step (reset_clear_flag_run (set_history (h ++ [prev]) s)).
  run_step (optimize_handler_off chain (click Revert file text_area) loc1
              (set_clear_triggered false (set_history (h ++ [prev]) s)) eq_refl).
  run_step (explain_handler_off explain_chain (click Revert file text_area) loc1
              (set_clear_triggered false (set_history (h ++ [prev]) s)) eq_refl).
  rewrite comparison_section_run by reflexivity.
  change (set_clear_triggered false (set_history (h ++ [prev]) s)) with s1.
  destruct (comparison_view s1) as [last|] eqn:Ev; [|reflexivity].
  assert (last = prev) as ->.
  { unfold comparison_view, s1 in Ev. cbn [history] in Ev.
    rewrite last_entry_app in Ev.
    destruct (_ && _ && _) in Ev; now inversion Ev. }
  reflexivity.
Qed.

Lemma handlers_clear (loc : Locals) (s : SessionState) :
  handlers chain explain_chain (click ClearAll file text_area) loc s
  = (Interrupted Rerun, mkSession [] true "" (show_explanation_only s), []).
Proof.
  unfold handlers.
  run_step (revert_handler_off (click ClearAll file text_area) loc s eq_refl).
  run_stop (clear_handler_on (click ClearAll file text_area) s eq_refl).
  reflexivity.
Qed.

Lemma handlers_explain (loc : Locals) (s : SessionState) explanation :
  PyStr.truthy (PyStr.strip (messy_code loc)) = true ->
  explain_chain (messy_code loc) (detected_language loc) = Returns explanation ->
  let showing := set_show_explanation_only true (set_clear_triggered false s) in
  handlers chain explain_chain (click ExplainCode file text_area) loc s
  = (Interrupted Stop,
     set_show_explanation_only false (set_clear_triggered false s),
     [(External (CallExplainChain (messy_code loc) (detected_language loc)), showing);
      (Explanation (text_of explanation), showing)]).
Proof.
  intros Hc Hr showing. unfold handlers.
  run_step (revert_handler_off (click ExplainCode file text_area) loc s eq_refl).
  run_step (clear_handler_off (click ExplainCode file text_area) s eq_refl).
  run_step (reset_clear_flag_run s).
  run_step (optimize_handler_off chain (click ExplainCode file text_area) loc
              (set_clear_triggered false s) eq_refl).
  run_stop (explain_handler_returns explain_chain (click ExplainCode file text_area) loc
              (set_clear_triggered false s) eq_refl Hc Hr).
  reflexivity.
Qed.

Lemma handlers_explain_raises (loc : Locals) (s : SessionState) :
  PyStr.truthy (PyStr.strip (messy_code loc)) = true ->
  explain_chain (messy_code loc) (detected_language loc) = Raises ->
  handlers chain explain_chain (click ExplainCode file text_area) loc s
  = (Interrupted Exception,
     set_show_explanation_only true (set_clear_triggered false s),
     [(External (CallExplainChain (messy_code loc) (detected_language loc)),
       set_show_explanation_only true (set_clear_triggered false s))]).
Proof.
  intros Hc Hr. unfold handlers.
  run_step (revert_handler_off (click ExplainCode file text_area) loc s eq_refl).
  run_step (clear_handler_off (click ExplainCode file text_area) s eq_refl).
  run_step (reset_clear_flag_run s).
  run_step (optimize_handler_off chain (click ExplainCode file text_area) loc
              (set_clear_triggered false s) eq_refl).
  run_stop (explain_handler_raises explain_chain (click ExplainCode file text_area) loc
              (set_clear_triggered false s) eq_refl Hc Hr).
  reflexivity.
Qed.

End Operations.

(** ** Events of a trace *)

Lemma events_app (t1 t2 : list Obs) : events (t1 ++ t2) = events t1 ++ events t2.
Proof. unfold events. apply map_app. Qed.

Lemma filter_none (P : Event -> bool) (l : list Event) :
  Forall (fun e => P e = false) l -> filter P l = [].
Proof.
  induction l as [|e l IH]; intros H; [reflexivity|].
  inversion H as [|? ? He Hl]; subst. simpl. rewrite He. now apply IH.
Qed.

Lemma events_entry_not_rendered guess_lexer inp s :
  Forall (fun e => is_comparison_or_download e = false)
         (events (entry_trace guess_lexer inp s)).
Proof.
  unfold entry_trace, events. cbn [map]. constructor; [reflexivity|].
  rewrite map_map. apply Forall_forall. intros e He.
  apply in_map_iff in He as [c [<- _]]. reflexivity.
Qed.

Lemma comparison_view_popped (h : list HistoryEntry) (prev : HistoryEntry) ct tv se :
  comparison_view (mkSession (h ++ [prev]) ct tv se)
  = if PyStr.truthy (PyStr.strip (cleaned prev))
       && PyStr.truthy (PyStr.strip (messy prev))
       && negb se
    then Some prev else None.
Proof.
  unfold comparison_view. cbn [history show_explanation_only].
  now rewrite last_entry_app.
Qed.

(** ** Optimize *)

Lemma optimize_run guess_lexer chain explain_chain file text_area s result :
  let inp := click OptimizeCode file text_area in
  let code := pasted_code inp s in
  let lang := resolved guess_lexer inp s in
  let run := script guess_lexer chain explain_chain inp s in
  PyStr.truthy (PyStr.strip code) = true ->
  chain code lang = Returns result ->
  state_of run
  = mkSession (history s ++ [mkEntry code (text_of result) lang])
              false (text_input_value s) false /\
  outcome_of run = Done (mkLocals code lang (Some (text_of result))).
Proof.
  intros inp code lang run Hc Hr. subst run.
  rewrite script_state, script_outcome.
  pose proof (@handlers_optimize chain explain_chain file text_area
                (entry_locals guess_lexer inp s) s result Hc Hr) as H.
  cbv zeta in H. fold inp in H. rewrite H.
  destruct (PyStr.truthy (PyStr.strip (text_of result))); split; reflexivity.
Qed.

(** C2: a successful optimize of a code buffer that is not blank appends
    one entry, made of the code, the text the chain returned and the
    detected language, at the end of the history, and leaves the entries
    before it as they were; two such runs from an empty history give a
    history of length 2 whose first entry is that of the first run. *)
Theorem C2_optimize_appends_one_entry :
  (forall guess_lexer chain explain_chain file text_area s result,
      let inp := click OptimizeCode file text_area in
      let code := pasted_code inp s in
      let lang := resolved guess_lexer inp s in
      let after := state_of (script guess_lexer chain explain_chain inp s) in
      PyStr.truthy (PyStr.strip code) = true ->
      chain code lang = Returns result ->
      history after = history s ++ [mkEntry code (text_of result) lang] /\
      length (history after) = S (length (history s)) /\
      (forall i, i < length (history s) ->
                 nth_error (history after) i = nth_error (history s) i) /\
      outcome_of (script guess_lexer chain explain_chain inp s)
      = Done (mkLocals code lang (Some (text_of result))))
  /\
  (forall guess1 chain1 explain1 file1 text_area1
          guess2 chain2 explain2 file2 text_area2 s result1 result2,
      let inp1 := click OptimizeCode file1 text_area1 in
      let code1 := pasted_code inp1 s in
      let lang1 := resolved guess1 inp1 s in
      let s1 := state_of (script guess1 chain1 explain1 inp1 s) in
      let inp2 := click OptimizeCode file2 text_area2 in
      let code2 := pasted_code inp2 s1 in
      let lang2 := resolved guess2 inp2 s1 in
      let s2 := state_of (script guess2 chain2 explain2 inp2 s1) in
      history s = [] ->
      PyStr.truthy (PyStr.strip code1) = true ->
      chain1 code1 lang1 = Returns result1 ->
      PyStr.truthy (PyStr.strip code2) = true ->
      chain2 code2 lang2 = Returns result2 ->
      length (history s2) = 2 /\
      nth_error (history s1) 0 = Some (mkEntry code1 (text_of result1) lang1) /\
      nth_error (history s2) 0 = Some (mkEntry code1 (text_of result1) lang1) /\
      nth_error (history s2) 1 = Some (mkEntry code2 (text_of result2) lang2)).
Proof.
  split.
  - intros guess_lexer chain explain_chain file text_area s result inp code lang after Hc Hr.
    destruct (@optimize_run guess_lexer chain explain_chain file text_area s result Hc Hr)
      as [Hs Ho].
    fold inp code lang in Hs, Ho. subst after. rewrite Hs. cbn [history].
    repeat split.
    + rewrite length_app. simpl. lia.
    + intros i Hi. now apply nth_error_app1.
    + exact Ho.
  - intros guess1 chain1 explain1 file1 text_area1 guess2 chain2 explain2 file2 text_area2
           s result1 result2 inp1 code1 lang1 s1 inp2 code2 lang2 s2 He Hc1 Hr1 Hc2 Hr2.
    destruct (@optimize_run guess1 chain1 explain1 file1 text_area1 s result1 Hc1 Hr1)
      as [Hs1 _].
    destruct (@optimize_run guess2 chain2 explain2 file2 text_area2 s1 result2 Hc2 Hr2)
      as [Hs2 _].
    fold inp1 code1 lang1 s1 in Hs1. fold inp2 code2 lang2 s2 in Hs2.
    rewrite Hs2, Hs1. cbn [history]. rewrite He. repeat split.
Qed.

Lemma C2_optimize_appends_one_entry_witness :
  let chain := fun (code : string) (_ : option string) =>
                 Returns (DictWithText (code ++ "  # cleaned")) in
  let explain_chain := fun (_ : string) (_ : option string) => Raises in
  let s1 := state_of (script None chain explain_chain
                        (click OptimizeCode None (fun _ => "x=1")) fresh_session) in
  let s2 := state_of (script None chain explain_chain
                        (click OptimizeCode None (fun _ => "y=2")) s1) in
  history s1 = [mkEntry "x=1" "x=1  # cleaned" None] /\
  length (history s2) = 2 /\
  nth_error (history s2) 0 = Some (mkEntry "x=1" "x=1  # cleaned" None).
Proof.
  intros chain explain_chain s1 s2.
  pose proof (proj1 C2_optimize_appends_one_entry None chain explain_chain None
                    (fun _ => "x=1") fresh_session (DictWithText "x=1  # cleaned")
                    eq_refl eq_refl) as H1.
  pose proof (proj2 C2_optimize_appends_one_entry
                    None chain explain_chain None (fun _ => "x=1")
                    None chain explain_chain None (fun _ => "y=2")
                    fresh_session
                    (DictWithText "x=1  # cleaned") (DictWithText "y=2  # cleaned")
                    eq_refl eq_refl eq_refl eq_refl eq_refl) as H2.
  split; [exact (proj1 H1)|].
  split; [exact (proj1 H2)|].
  exact (proj1 (proj2 (proj2 H2))).
Defined.

(** ** Revert *)

Lemma two_last (h : list HistoryEntry) :
  1 < length h -> exists h' prev cur, h = h' ++ [prev; cur].
Proof.
  intros Hlen.
  destruct (exists_last (l := h)) as [h1 [cur ->]].
  { intros ->. simpl in Hlen. lia. }
  destruct (exists_last (l := h1)) as [h' [prev ->]].
  { intros ->. simpl in Hlen. lia. }
  exists h', prev, cur. now rewrite <- app_assoc.
Qed.

(** C3, as the code has it: with at most one entry in the history, revert
    changes nothing in the session (the flag of the clear button, which
    only lives from a clear to the run after it, is off afterwards) and
    shows the warning that there is no previous version; with N > 1
    entries it removes the last one, the history has N-1 entries, and the
    code, the cleaned output and the language of the run are those of the
    new last entry; the comparison and the download of that entry are
    rendered when its cleaned code and its original code are not blank and
    [show_explanation_only] is off, and nothing of it is rendered
    otherwise. *)
Theorem C3_revert :
  (forall guess_lexer chain explain_chain file text_area s,
      let run := script guess_lexer chain explain_chain (click Revert file text_area) s in
      length (history s) <= 1 ->
      history (state_of run) = history s /\
      text_input_value (state_of run) = text_input_value s /\
      show_explanation_only (state_of run) = show_explanation_only s /\
      clear_triggered (state_of run) = false /\
      (clear_triggered s = false -> state_of run = s) /\
      In (Notice NoPreviousVersion) (events (trace_of run)) /\
      ~ In (Notice RevertedToPrevious) (events (trace_of run)))
  /\
  (forall guess_lexer chain explain_chain file text_area s,
      let run := script guess_lexer chain explain_chain (click Revert file text_area) s in
      1 < length (history s) ->
      history (state_of run) = pop (history s) /\
      length (history (state_of run)) = length (history s) - 1 /\
      text_input_value (state_of run) = text_input_value s /\
      show_explanation_only (state_of run) = show_explanation_only s /\
      (exists prev,
          last_entry (history (state_of run)) = Some prev /\
          outcome_of run
          = Done (mkLocals (messy prev) (language prev) (Some (cleaned prev))) /\
          filter is_comparison_or_download (events (trace_of run))
          = if PyStr.truthy (PyStr.strip (cleaned prev))
               && PyStr.truthy (PyStr.strip (messy prev))
               && negb (show_explanation_only s)
            then [Comparison (messy prev) (cleaned prev) (language prev);
                  Download (cleaned prev)
                           ("optimized_code." ++ str_of_language (language prev))]
            else []) /\
      In (Notice RevertedToPrevious) (events (trace_of run)) /\
      ~ In (Notice NoPreviousVersion) (events (trace_of run))).
Proof.
  split.
  - intros guess_lexer chain explain_chain file text_area s run Hlen. subst run.
    rewrite script_state, script_trace.
    rewrite (@handlers_revert_nothing chain explain_chain file text_area _ s Hlen).
    assert (Hentry : forall m, ~ In (Notice m)
                                 (events (entry_trace guess_lexer (click Revert file text_area) s))).
    { intros m. unfold entry_trace, events. cbn [map]. rewrite map_map. cbn [fst].
      intros [H|H]; [discriminate H|].
      apply in_map_iff in H as [c [H _]]. discriminate H. }
    destruct (comparison_view s) as [last|];
      unfold state_of, trace_of, events; cbn [fst snd];
      (repeat split;
       [ apply set_clear_triggered_same
       | rewrite map_app; apply in_or_app; right; now left
       | rewrite map_app; intros H; apply in_app_or in H as [H|H];
         [ now apply (Hentry RevertedToPrevious)
         | cbn in H; repeat (destruct H as [H|H]; [discriminate H|]); exact H ] ]).
  - intros guess_lexer chain explain_chain file text_area s run Hlen. subst run.
    destruct (two_last _ Hlen) as [h [prev [cur Hh]]].
    rewrite script_state, script_trace, script_outcome.
    rewrite (@handlers_revert_pop chain explain_chain file text_area _ s h prev cur Hh).
    assert (Hentry : forall m, ~ In (Notice m)
                                 (events (entry_trace guess_lexer (click Revert file text_area) s))).
    { intros m. unfold entry_trace, events. cbn [map]. rewrite map_map. cbn [fst].
      intros [H|H]; [discriminate H|].
      apply in_map_iff in H as [c [H _]]. discriminate H. }
    assert (Hpop : pop (history s) = h ++ [prev]).
    { rewrite Hh. change (h ++ [prev; cur]) with (h ++ [prev] ++ [cur]).
      rewrite app_assoc. apply pop_app. }
    assert (Hl : length (h ++ [prev]) = length (history s) - 1).
    { rewrite Hh, !length_app. simpl. lia. }
    rewrite Hpop, comparison_view_popped.
    pose proof (filter_none _ (events_entry_not_rendered guess_lexer
                                 (click Revert file text_area) s)) as Hnone.
    destruct (PyStr.truthy (PyStr.strip (cleaned prev))
              && PyStr.truthy (PyStr.strip (messy prev))
              && negb (show_explanation_only s)) eqn:Eview;
      unfold state_of, trace_of, outcome_of; cbn [fst snd history
        text_input_value show_explanation_only];
      (split; [reflexivity|]); (split; [exact Hl|]);
      (split; [reflexivity|]); (split; [reflexivity|]);
      (split;
       [ exists prev; split; [apply last_entry_app|]; split; [reflexivity|];
         rewrite events_app, filter_app, Hnone, Eview; reflexivity
       | split;
         [ rewrite events_app; apply in_or_app; right; now left
         | rewrite events_app; intros H; apply in_app_or in H as [H|H];
           [ now apply (Hentry NoPreviousVersion)
           | cbn in H; repeat (destruct H as [H|H]; [discriminate H|]); exact H ] ] ]).
Qed.

Lemma C3_revert_witness :
  let chain := fun (_ : string) (_ : option string) => Raises in
  let first := mkEntry "x=1" "x = 1" (Some "python") in
  let second := mkEntry "x = 1" "x = 1  # one" (Some "python") in
  let s := mkSession [first; second] false "x = 1" false in
  let run := script None chain chain (click Revert None (fun v => v)) s in
  let again := script None chain chain (click Revert None (fun v => v)) (state_of run) in
  (history (state_of run) = [first] /\
   exists prev,
     last_entry (history (state_of run)) = Some prev /\
     outcome_of run = Done (mkLocals (messy prev) (language prev) (Some (cleaned prev))) /\
     filter is_comparison_or_download (events (trace_of run))
     = if PyStr.truthy (PyStr.strip (cleaned prev))
          && PyStr.truthy (PyStr.strip (messy prev))
          && negb (show_explanation_only s)
       then [Comparison (messy prev) (cleaned prev) (language prev);
             Download (cleaned prev)
                      ("optimized_code." ++ str_of_language (language prev))]
       else []) /\
  (state_of again = state_of run /\
   In (Notice NoPreviousVersion) (events (trace_of again))).
Proof.
  intros chain first second s run again.
  assert (Hlen : 1 < length (history s)) by (simpl; lia).
  pose proof (proj2 C3_revert None chain chain None (fun v => v) s Hlen) as H.
  assert (Hlen' : length (history (state_of run)) <= 1) by (simpl; lia).
  pose proof (proj1 C3_revert None chain chain None (fun v => v) (state_of run) Hlen')
    as H'.
  split; split.
  - exact (proj1 H).
  - exact (proj1 (proj2 (proj2 (proj2 (proj2 H))))).
  - exact (proj1 (proj2 (proj2 (proj2 (proj2 H')))) eq_refl).
  - exact (proj1 (proj2 (proj2 (proj2 (proj2 (proj2 H')))))).
Defined.

Lemma blank_then_cleaned_session_reachable : reachable blank_then_cleaned_session.
Proof.
  change blank_then_cleaned_session
    with (state_of (script None blank_for_first (fun _ _ => Raises)
                      (click OptimizeCode None (fun _ => "y = 2"))
                      (state_of (script None blank_for_first (fun _ _ => Raises)
                                   (click OptimizeCode None (fun _ => "x = 1"))
                                   fresh_session)))).
  apply reach_run. apply reach_run. apply reach_fresh.
Qed.

(** C3 as stated fails in its last part: in the session that two optimize
    runs leave when the chain returned the empty text for the first, which
    has two entries, revert removes the last entry and the new last entry
    is the first one, yet no comparison is rendered: the run shows the text
    area and the notice only, so the view does not show the new last
    entry. *)
Lemma C3_counterexample :
  let first := mkEntry "x = 1" "" None in
  let run := script None (fun _ _ => Raises) (fun _ _ => Raises)
                    (click Revert None (fun v => v)) blank_then_cleaned_session in
  reachable blank_then_cleaned_session /\
  length (history blank_then_cleaned_session) = 2 /\
  history (state_of run) = [first] /\
  last_entry (history (state_of run)) = Some first /\
  events (trace_of run) = [TextArea ""; Notice RevertedToPrevious] /\
  ~ In (Comparison (messy first) (cleaned first) (language first))
       (events (trace_of run)).
Proof.
  intros first run.
  split; [exact blank_then_cleaned_session_reachable|].
  split; [reflexivity|]. split; [reflexivity|]. split; [reflexivity|].
  split; [reflexivity|].
  cbn. intros [H|[H|[]]]; discriminate H.
Qed.

(** ** Clear all *)

(** C8: whatever the session, clear all leaves an empty history and an
    empty text input value, raises the flag for the next run and asks for
    that run; the next run, whatever its inputs, creates the text area with
    the empty text as its value, before anything else. *)
Theorem C8_clear_all guess_lexer chain explain_chain file text_area (s : SessionState) :
  let run := script guess_lexer chain explain_chain (click ClearAll file text_area) s in
  history (state_of run) = [] /\
  text_input_value (state_of run) = "" /\
  clear_triggered (state_of run) = true /\
  outcome_of run = Interrupted Rerun /\
  (forall guess_lexer' chain' explain_chain' inp',
      exists t,
        trace_of (script guess_lexer' chain' explain_chain' inp' (state_of run))
        = (TextArea "", state_of run) :: t) /\
  (forall inp', pasted_code inp' (state_of run) = st_text_area inp' "").
Proof.
  intros run. subst run.
  rewrite script_state, script_outcome, handlers_clear.
  unfold state_of, outcome_of. cbn [fst snd]. repeat split.
  intros guess_lexer' chain' explain_chain' inp'.
  rewrite script_trace. unfold entry_trace. cbn [clear_triggered].
  eexists. reflexivity.
Qed.

(** ** Explain *)




(** ** Blank code *)

Lemma no_completion_call_at_entry guess_lexer inp s :
  Forall (fun e => is_completion_call e = false) (events (entry_trace guess_lexer inp s)).
Proof.
  unfold entry_trace, events. cbn [map]. constructor; [reflexivity|].
  rewrite map_map. apply Forall_forall. intros e He.
  apply in_map_iff in He as [c [<- Hc]]. cbn [fst].
  unfold resolveLanguage, language_by_lexer in Hc.
  destruct guess_lexer as [guess|]; [|destruct Hc].
  destruct (_ && _); [|destruct Hc].
  destruct (try_guess guess _); destruct Hc as [<-|[]]; reflexivity.
Qed.

(** C10: on a code buffer that is empty or holds only white space, optimize
    and explain do nothing, by the test of the handler itself: the run
    calls neither chain, the history, the text input value and
    [show_explanation_only] are as before, and so is the whole session
    when the flag of the clear button was off. *)
Theorem C10_blank_code_is_a_no_op
        guess_lexer chain explain_chain file text_area (b : Button) (s : SessionState) :
  let inp := click b file text_area in
  let run := script guess_lexer chain explain_chain inp s in
  b = OptimizeCode \/ b = ExplainCode ->
  PyStr.truthy (PyStr.strip (pasted_code inp s)) = false ->
  Forall (fun e => is_completion_call e = false) (events (trace_of run)) /\
  history (state_of run) = history s /\
  text_input_value (state_of run) = text_input_value s /\
  show_explanation_only (state_of run) = show_explanation_only s /\
  clear_triggered (state_of run) = false /\
  (clear_triggered s = false -> state_of run = s).
Proof.
  intros inp run Hb Hc. subst run.
  rewrite script_state, script_trace.
  assert (Hidle : handlers chain explain_chain inp (entry_locals guess_lexer inp s) s
                  = match comparison_view s with
                    | Some last =>
                        (Done (mkLocals (pasted_code inp s) (language last) (Some (cleaned last))),
                         set_clear_triggered false s,
                         [(Comparison (messy last) (cleaned last) (language last),
                           set_clear_triggered false s);
                          (Download (cleaned last)
                                    ("optimized_code." ++ str_of_language (language last)),
                           set_clear_triggered false s)])
                    | None => (Done (entry_locals guess_lexer inp s),
                               set_clear_triggered false s, [])
                    end).
  { subst inp. apply handlers_idle.
    - now destruct Hb as [-> | ->].
    - now destruct Hb as [-> | ->].
    - cbn [entry_locals messy_code]. rewrite Hc. apply andb_false_r.
    - cbn [entry_locals messy_code]. rewrite Hc. apply andb_false_r. }
  rewrite Hidle.
  pose proof (no_completion_call_at_entry guess_lexer inp s) as Hentry.
  destruct (comparison_view s) as [last|];
    unfold state_of, trace_of, events; cbn [fst snd];
    (repeat split;
     [ rewrite map_app; apply Forall_app; split;
       [exact Hentry | repeat constructor]
     | apply set_clear_triggered_same ]).
Qed.

Lemma C10_blank_code_is_a_no_op_witness :
  let chain := fun (_ : string) (_ : option string) => Returns (Plain "unused") in
  let s := mkSession [mkEntry "x=1" "x = 1" None] false "" true in
  state_of (script None chain chain (click OptimizeCode None (fun _ => "   ")) s) = s.
Proof.
  intros chain s.
  pose proof (@C10_blank_code_is_a_no_op None chain chain None (fun _ => "   ")
                OptimizeCode s (or_introl eq_refl) eq_refl) as H.
  exact (proj2 (proj2 (proj2 (proj2 (proj2 H)))) eq_refl).
Defined.

(** The explain run whose chain raises ends with the flag still on: line
    310 is not reached. *)
Lemma explain_raises_leaves_flag guess_lexer chain explain_chain file text_area s :
  let inp := click ExplainCode file text_area in
  PyStr.truthy (PyStr.strip (pasted_code inp s)) = true ->
  explain_chain (pasted_code inp s) (resolved guess_lexer inp s) = Raises ->
  show_explanation_only (state_of (script guess_lexer chain explain_chain inp s)) = true.
Proof.
  intros inp Hc Hr. rewrite script_state.
  pose proof (@handlers_explain_raises chain explain_chain file text_area
                (entry_locals guess_lexer inp s) s Hc Hr) as H.
  fold inp in H. now rewrite H.
Qed.

(** ** An invariant of the history *)

Section Keeps.

Variable I : SessionState -> Prop.

Lemma keeps_ret {A} (a : A) : keeps I (ret a).
Proof. intros s Hs. exact Hs. Qed.

Lemma keeps_get : keeps I get.
Proof. intros s Hs. exact Hs. Qed.

Lemma keeps_emit (e : Event) : keeps I (emit e).
Proof. intros s Hs. exact Hs. Qed.

Lemma keeps_interrupt {A} (sg : Signal) : keeps I (@interrupt A sg).
Proof. intros s Hs. exact Hs. Qed.

Lemma keeps_modify (f : SessionState -> SessionState) :
  (forall s, I s -> I (f s)) -> keeps I (modify f).
Proof. intros Hf s Hs. now apply Hf. Qed.

Lemma keeps_bind {A B} (m : Script A) (k : A -> Script B) :
  keeps I m -> (forall a, keeps I (k a)) -> keeps I (bind m k).
Proof.
  intros Hm Hk s Hs. unfold bind. specialize (Hm s Hs).
  destruct (m s) as [[[a|sg] s1] t1]; unfold state_of in Hm; cbn [fst snd] in Hm.
  - specialize (Hk a s1 Hm). destruct (k a s1) as [[o s2] t2]. exact Hk.
  - exact Hm.
Qed.

Lemma keeps_when (b : bool) (m : Script unit) : keeps I m -> keeps I (when b m).
Proof. intros Hm. destruct b; [exact Hm | apply keeps_ret]. Qed.

Lemma keeps_emit_calls (calls : list Call) : keeps I (emit_calls calls).
Proof. intros s Hs. now rewrite emit_calls_run. Qed.

End Keeps.

Ltac keeps_steps :=
  repeat first
    [ apply keeps_ret | apply keeps_get | apply keeps_emit | apply keeps_interrupt
    | apply keeps_emit_calls
    | apply keeps_when
    | apply keeps_bind; [|intros ?]
    | match goal with
      | |- keeps _ (if ?b then _ else _) => destruct b eqn:?
      | |- keeps _ (match ?x with Some _ => _ | None => _ end) => destruct x
      | |- keeps _ (match ?x with Returns _ => _ | Raises => _ end) => destruct x
      | |- keeps _ (let (_, _) := ?x in _) => destruct x
      end ].

Lemma originals_not_blank_pop (h : list HistoryEntry) :
  originals_not_blank h -> originals_not_blank (pop h).
Proof.
  unfold originals_not_blank, pop. induction h as [|e h IH]; intros H.
  - constructor.
  - inversion H; subst. destruct h as [|e' h'].
    + constructor.
    + change (removelast (e :: e' :: h')) with (e :: removelast (e' :: h')).
      constructor; [assumption | now apply IH].
Qed.

Lemma script_keeps_originals guess_lexer chain explain_chain inp :
  keeps (fun s => originals_not_blank (history s))
        (script guess_lexer chain explain_chain inp).
Proof.
  unfold script, handlers, code_input, detect_language, revert_handler, clear_handler,
    reset_clear_flag, optimize_handler, explain_handler, comparison_section.
  cbv zeta.
  keeps_steps.
  - apply keeps_modify. intros s Hs. cbn [history set_history].
    now apply originals_not_blank_pop.
  - apply keeps_modify. intros s Hs. constructor.
  - apply keeps_modify. intros s Hs. cbn [history set_history]. unfold append.
    apply Forall_app. split; [exact Hs|].
    constructor; [|constructor]. cbn [messy].
    match goal with H : _ && _ = true |- _ => apply andb_prop in H as [_ H]; exact H end.
Qed.

Lemma reachable_originals_not_blank (s : SessionState) :
  reachable s -> originals_not_blank (history s).
Proof.
  induction 1 as [|guess_lexer chain explain_chain inp s Hs IH|text s Hs IH].
  - constructor.
  - now apply (@script_keeps_originals guess_lexer chain explain_chain inp s).
  - exact IH.
Qed.

Lemma last_cons_default (h : list HistoryEntry) :
  forall x d, last (x :: h) d = last h x.
Proof.
  induction h as [|y h IH]; intros x d.
  - reflexivity.
  - change (last (x :: y :: h) d) with (last (y :: h) d).
    now rewrite (IH y d), (IH y x).
Qed.

Lemma last_entry_In (h : list HistoryEntry) (e : HistoryEntry) :
  last_entry h = Some e -> In e h.
Proof.
  destruct h as [|x h]; intros H; [discriminate H|].
  unfold last_entry in H. inversion H as [He]. clear H.
  rewrite <- (last_cons_default h x x).
  assert (Hne : x :: h <> []) by discriminate.
  pose proof (app_removelast_last x Hne) as E.
  set (l := x :: h) in *. rewrite E at 2.
  apply in_or_app. right. now left.
Qed.

(** ** The comparison view *)

(** C4, as the code has it: in a reachable session whose history is not
    empty, whose last entry holds a cleaned code that is not blank, and in
    which [show_explanation_only] is false, the comparison view is the last
    entry of the history, and a run in which no button is pressed renders
    its original code, its cleaned code and its language. *)
Theorem C4_view_is_last_entry (s : SessionState) (last : HistoryEntry) :
  reachable s ->
  last_entry (history s) = Some last ->
  show_explanation_only s = false ->
  PyStr.truthy (PyStr.strip (cleaned last)) = true ->
  comparison_view s = Some last /\
  (forall guess_lexer chain explain_chain file text_area,
      let run := script guess_lexer chain explain_chain (click NoButton file text_area) s in
      In (Comparison (messy last) (cleaned last) (language last)) (events (trace_of run)) /\
      exists loc,
        outcome_of run = Done loc /\
        detected_language loc = language last /\
        optimized loc = Some (cleaned last)).
Proof.
  intros Hreach Hlast Hshow Hclean.
  assert (Hview : comparison_view s = Some last).
  { unfold comparison_view. rewrite Hlast, Hclean, Hshow.
    pose proof (reachable_originals_not_blank Hreach) as Hall.
    unfold originals_not_blank in Hall. rewrite Forall_forall in Hall.
    rewrite (Hall last (last_entry_In _ Hlast)). reflexivity. }
  split; [exact Hview|].
  intros guess_lexer chain explain_chain file text_area run. subst run.
  rewrite script_trace, script_outcome.
  rewrite (@handlers_idle chain explain_chain file text_area NoButton _ s
             eq_refl eq_refl eq_refl eq_refl).
  rewrite Hview. unfold trace_of, outcome_of, events. cbn [fst snd]. split.
  - rewrite map_app. apply in_or_app. right. now left.
  - eexists. split; [reflexivity|]. split; reflexivity.
Qed.

Lemma blank_result_session_reachable : reachable blank_result_session.
Proof.
  change blank_result_session
    with (state_of (script None
                      (fun _ _ => Returns (DictWithText ""))
                      (fun _ _ => Raises)
                      (click OptimizeCode None (fun _ => "x = 1"))
                      fresh_session)).
  apply reach_run. apply reach_fresh.
Qed.

Lemma C4_view_is_last_entry_witness :
  let s := mkSession [mkEntry "x=1" "x = 1  # one" None] false "" false in
  comparison_view s = Some (mkEntry "x=1" "x = 1  # one" None).
Proof.
  intros s.
  assert (Hreach : reachable s).
  { change s
      with (state_of (script None
                        (fun _ _ => Returns (DictWithText "x = 1  # one"))
                        (fun _ _ => Raises)
                        (click OptimizeCode None (fun _ => "x=1"))
                        fresh_session)).
    apply reach_run. apply reach_fresh. }
  exact (proj1 (@C4_view_is_last_entry s (mkEntry "x=1" "x = 1  # one" None)
                  Hreach eq_refl eq_refl eq_refl)).
Defined.

(** C4 as stated fails: the session that an optimize run leaves when the
    chain returns the empty text is reachable, its history is not empty and
    [show_explanation_only] is false, yet the view is empty and a run with
    no button pressed renders no comparison. *)
Lemma C4_counterexample :
  reachable blank_result_session /\
  history blank_result_session <> [] /\
  show_explanation_only blank_result_session = false /\
  last_entry (history blank_result_session) = Some (mkEntry "x = 1" "" None) /\
  comparison_view blank_result_session = None /\
  comparison_view blank_result_session <> last_entry (history blank_result_session) /\
  events (trace_of (script None (fun _ _ => Raises) (fun _ _ => Raises)
                           (click NoButton None (fun v => v)) blank_result_session))
  = [TextArea ""].
Proof.
  split; [exact blank_result_session_reachable|].
  split; [discriminate|].
  split; [reflexivity|]. split; [reflexivity|]. split; [reflexivity|].
  split; [discriminate|]. reflexivity.
Qed.

(** ** The failure of the lexer guessing *)

(** C7: when the lexer guessing is consulted (no language from the file
    extension, non-empty code text) and raises [ClassNotFound], the
    detected language is [None]; the exception ends at line 219: a run of
    the script in which this happens and no button is pressed goes on to
    its last line, with the code as it was pasted. *)
Theorem C7_class_not_found_is_unresolved
        (guess : string -> GuessResult) (file : option UploadedFile)
        (messy_code : string) :
  language_by_extension file = None ->
  PyStr.truthy messy_code = true ->
  guess messy_code = ClassNotFound ->
  resolveLanguage (Some guess) file messy_code = (None, [CallGuessLexer messy_code]) /\
  (forall chain explain_chain text_area s,
      let inp := click NoButton file text_area in
      pasted_code inp s = messy_code ->
      resolved (Some guess) inp s = None /\
      exists loc,
        outcome_of (script (Some guess) chain explain_chain inp s) = Done loc /\
        (comparison_view s = None -> detected_language loc = None)).
Proof.
  intros He Hc Hg.
  assert (Hres : resolveLanguage (Some guess) file messy_code
                 = (None, [CallGuessLexer messy_code])).
  { unfold resolveLanguage. rewrite He.
    rewrite language_by_lexer_consulted by easy. now rewrite Hg. }
  split; [exact Hres|].
  intros chain explain_chain text_area s inp Hp.
  assert (Hr : resolved (Some guess) inp s = None).
  { unfold resolved. rewrite Hp. cbn [uploaded_file inp click]. now rewrite Hres. }
  split; [exact Hr|].
  rewrite script_outcome.
  pose proof (@handlers_idle chain explain_chain file text_area NoButton
                (entry_locals (Some guess) inp s) s eq_refl eq_refl eq_refl eq_refl) as H.
  fold inp in H. rewrite H.
  destruct (comparison_view s) as [last|].
  - eexists. split; [reflexivity|]. discriminate.
  - eexists. split; [reflexivity|]. intros _. exact Hr.
Qed.

Lemma C7_class_not_found_is_unresolved_witness :
  resolveLanguage (Some (fun _ => ClassNotFound))
                  (Some (mkUploadedFile "notes.txt" "???")) "???"
  = (None, [CallGuessLexer "???"]).
Proof.
  exact (proj1 (@C7_class_not_found_is_unresolved (fun _ => ClassNotFound)
                  (Some (mkUploadedFile "notes.txt" "???")) "???"
                  eq_refl eq_refl eq_refl)).
Defined.

(** ** What a run can ask of the lexer guessing *)

Section EmitsOnly.

Variable P : Event -> bool.

Lemma emits_only_ret {A} (a : A) : emits_only P (ret a).
Proof. intros s. constructor. Qed.

Lemma emits_only_get : emits_only P get.
Proof. intros s. constructor. Qed.

Lemma emits_only_modify (f : SessionState -> SessionState) : emits_only P (modify f).
Proof. intros s. constructor. Qed.

Lemma emits_only_interrupt {A} (sg : Signal) : emits_only P (@interrupt A sg).
Proof. intros s. constructor. Qed.

Lemma emits_only_emit (e : Event) : P e = true -> emits_only P (emit e).
Proof. intros He s. constructor; [exact He | constructor]. Qed.

Lemma emits_only_bind {A B} (m : Script A) (k : A -> Script B) :
  emits_only P m -> (forall a, emits_only P (k a)) -> emits_only P (bind m k).
Proof.
  intros Hm Hk s. unfold bind. specialize (Hm s).
  destruct (m s) as [[[a|sg] s1] t1]; unfold trace_of in Hm; cbn [snd] in Hm.
  - specialize (Hk a s1). destruct (k a s1) as [[o s2] t2].
    unfold trace_of in *. cbn [snd] in *. apply Forall_app. now split.
  - exact Hm.
Qed.

Lemma emits_only_when (b : bool) (m : Script unit) :
  emits_only P m -> emits_only P (when b m).
Proof. intros Hm. destruct b; [exact Hm | apply emits_only_ret]. Qed.

End EmitsOnly.

Ltac emits_steps :=
  repeat first
    [ apply emits_only_ret | apply emits_only_get | apply emits_only_modify
    | apply emits_only_interrupt
    | apply emits_only_emit; reflexivity
    | apply emits_only_when
    | apply emits_only_bind; [|intros ?]
    | match goal with
      | |- emits_only _ (if ?b then _ else _) => destruct b
      | |- emits_only _ (match ?x with Some _ => _ | None => _ end) => destruct x
      | |- emits_only _ (match ?x with Returns _ => _ | Raises => _ end) => destruct x
      end ].

Lemma handlers_never_guess chain explain_chain inp loc :
  emits_only not_guess_call (handlers chain explain_chain inp loc).
Proof.
  unfold handlers, revert_handler, clear_handler, reset_clear_flag, optimize_handler,
    explain_handler, comparison_section.
  cbv zeta. emits_steps.
Qed.

(** C1: when the lower-cased extension of the uploaded file's name is a key
    of the extension table, the detected language is the mapped tag,
    whatever the code text and whatever the lexer guessing would answer,
    and the lexer guessing is not consulted: neither by the detection nor
    anywhere else in a run of the script on that file. *)
Theorem C1_extension_wins
        (guess_lexer : option (string -> GuessResult))
        (f : UploadedFile) (tag : string) :
  dict_get EXTENSION_TO_LANG (PyStr.lower (snd (PyStr.splitext (name f)))) = Some tag ->
  (forall messy_code, resolveLanguage guess_lexer (Some f) messy_code = (Some tag, [])) /\
  (forall chain explain_chain inp s,
      uploaded_file inp = Some f ->
      resolved guess_lexer inp s = Some tag /\
      Forall (fun e => is_guess_call e = false)
             (events (trace_of (script guess_lexer chain explain_chain inp s)))).
Proof.
  intros H.
  assert (Hres : forall messy_code,
             resolveLanguage guess_lexer (Some f) messy_code = (Some tag, [])).
  { intros messy_code. unfold resolveLanguage, language_by_lexer.
    rewrite (language_by_extension_known f H).
    pose proof (dict_get_truthy _ _ extension_tags_truthy H) as Ht.
    simpl. rewrite Ht. simpl. now destruct guess_lexer. }
  split; [exact Hres|].
  intros chain explain_chain inp s Hf. split.
  - unfold resolved. now rewrite Hf, Hres.
  - rewrite script_trace. unfold events. rewrite map_app. apply Forall_app. split.
    + unfold entry_trace. rewrite Hf, Hres. cbn. constructor; [reflexivity|constructor].
    + pose proof (@handlers_never_guess chain explain_chain inp
                    (entry_locals guess_lexer inp s) s) as Hh.
      apply Forall_map. revert Hh. apply Forall_impl.
      intros [e st]. unfold not_guess_call. cbn [fst].
      now destruct (is_guess_call e).
Qed.

(** The scenario of the specification: [script.py] holding text that a
    lexer would call JavaScript. *)
Lemma C1_extension_wins_witness :
  resolveLanguage (Some (fun _ => Lexer "JavaScript"))
                  (Some (mkUploadedFile "script.py" "function f() { return 1; }"))
                  "function f() { return 1; }"
  = (Some "python", []).
Proof.
  exact (proj1 (@C1_extension_wins (Some (fun _ => Lexer "JavaScript"))
                  (mkUploadedFile "script.py" "function f() { return 1; }")
                  "python" eq_refl)
               "function f() { return 1; }").
Defined.

(** ** Scenarios of the specification *)

Example splitext_script :
  PyStr.splitext "dir.d/script.PY" = ("dir.d/script", ".PY").
Proof. reflexivity. Qed.

Example splitext_hidden_file : PyStr.splitext ".bashrc" = (".bashrc", "").
Proof. reflexivity. Qed.

Example splitext_leading_dots :
  PyStr.splitext "a/..b.c.tar.gz" = ("a/..b.c.tar", ".gz").
Proof. reflexivity. Qed.

Example strip_both_ends : PyStr.strip "  a b  " = "a b".
Proof. reflexivity. Qed.

(** No file, and pasted text that the lexer guessing calls [C++]. *)
Example pasted_cpp_is_cpp :
  resolveLanguage (Some (fun _ => Lexer "C++")) None "int main() { return 0; }"
  = (Some "cpp", [CallGuessLexer "int main() { return 0; }"]).
Proof. reflexivity. Qed.

(** Empty code and no file: the language is unresolved and nothing is asked. *)
Example empty_code_is_unresolved :
  resolveLanguage (Some (fun _ => Lexer "Python")) None "" = (None, []).
Proof. reflexivity. Qed.

(** Optimize twice, then revert once: one entry is left, and the run shows
    the result of the first optimize. *)
Example optimize_twice_then_revert :
  let chain := fun (code : string) (_ : option string) =>
                 Returns (DictWithText (code ++ "  # cleaned")) in
  let explain_chain := fun (_ : string) (_ : option string) => Raises in
  let s1 := state_of (script None chain explain_chain
                        (click OptimizeCode None (fun _ => "x=1")) fresh_session) in
  let s2 := state_of (script None chain explain_chain
                        (click OptimizeCode None (fun _ => "y=2")) s1) in
  let run := script None chain explain_chain (click Revert None (fun _ => "y=2")) s2 in
  history (state_of run) = [mkEntry "x=1" "x=1  # cleaned" None] /\
  outcome_of run = Done (mkLocals "x=1" None (Some "x=1  # cleaned")) /\
  events (trace_of run)
  = [TextArea ""; Notice RevertedToPrevious;
     Comparison "x=1" "x=1  # cleaned" None;
     Download "x=1  # cleaned" "optimized_code.None"].
Proof. repeat split. Qed.

(** Revert with an empty history: the warning, and nothing else. *)
Example revert_on_empty_history :
  let chain := fun (_ : string) (_ : option string) => Raises in
  let run := script None chain chain (click Revert None (fun v => v)) fresh_session in
  state_of run = fresh_session /\
  outcome_of run = Done (mkLocals "" None None) /\
  events (trace_of run) = [TextArea ""; Notice NoPreviousVersion].
Proof. repeat split. Qed.

(** * Further properties *)

(** ** The language detection, case by case *)

Lemma language_by_extension_truthy (file : option UploadedFile) (tag : string) :
  language_by_extension file = Some tag -> PyStr.truthy tag = true.
Proof.
  unfold language_by_extension. destruct file as [f|]; [|discriminate].
  destruct (PyStr.truthy (name f)); [|discriminate].
  cbv zeta. destruct (dict_mem _ _); [|discriminate].
  apply dict_get_truthy. exact extension_tags_truthy.
Qed.

Lemma language_by_extension_falsy (file : option UploadedFile) :
  PyStr.truthy_opt (language_by_extension file) = false <->
  language_by_extension file = None.
Proof.
  destruct (language_by_extension file) as [tag|] eqn:E; simpl.
  - rewrite (language_by_extension_truthy _ E). split; discriminate.
  - split; reflexivity.
Qed.

(** X1: the lexer guessing is called at most once in a detection, with the
    whole code text, and it is called exactly when Pygments was imported,
    the file extension gave no language and the code text is not empty. *)
Theorem X1_guess_called_exactly_when_needed
        (guess_lexer : option (string -> GuessResult))
        (file : option UploadedFile) (messy_code : string) :
  (snd (resolveLanguage guess_lexer file messy_code) = [CallGuessLexer messy_code] \/
   snd (resolveLanguage guess_lexer file messy_code) = []) /\
  (snd (resolveLanguage guess_lexer file messy_code) = [CallGuessLexer messy_code] <->
   guess_lexer <> None /\ language_by_extension file = None /\ messy_code <> "").
Proof.
  unfold resolveLanguage, language_by_lexer.
  destruct guess_lexer as [guess|].
  - destruct (language_by_extension file) as [tag|] eqn:E.
    + cbn [PyStr.truthy_opt]. rewrite (language_by_extension_truthy _ E).
      cbn [negb andb snd]. split; [now right|].
      split; [discriminate|]. intros [_ [H _]]. discriminate H.
    + cbn [PyStr.truthy_opt negb andb].
      destruct messy_code as [|c r]; cbn [PyStr.truthy snd].
      * split; [now right|]. split; [discriminate|]. intros [_ [_ H]]. now contradiction H.
      * assert (Hs : snd (match try_guess guess (String c r) with
                          | Some detected => (detected, [CallGuessLexer (String c r)])
                          | None => (None, [CallGuessLexer (String c r)])
                          end) = [CallGuessLexer (String c r)])
          by now destruct (try_guess guess (String c r)).
        rewrite Hs. split; [now left|]. split; [|reflexivity].
        intros _. repeat split; discriminate.
  - cbn [snd]. split; [now right|]. split; [discriminate|].
    intros [H _]. now contradiction H.
Qed.

(** X2: with an empty code text, or without Pygments, the detection is the
    lookup of the file extension alone, and nothing is asked of the lexer
    guessing; in particular an empty text without a known extension has no
    language. *)
Theorem X2_no_code_or_no_pygments
        (guess_lexer : option (string -> GuessResult))
        (file : option UploadedFile) (messy_code : string) :
  messy_code = "" \/ guess_lexer = None ->
  resolveLanguage guess_lexer file messy_code = (language_by_extension file, []).
Proof.
  intros H. unfold resolveLanguage, language_by_lexer.
  destruct guess_lexer as [guess|]; [|reflexivity].
  destruct H as [-> | H]; [|discriminate H].
  cbn [PyStr.truthy]. now rewrite andb_false_r.
Qed.

Lemma X2_no_code_or_no_pygments_witness :
  resolveLanguage (Some (fun _ => Lexer "Python")) (Some (mkUploadedFile "empty.rs" "")) ""
  = (Some "rust", []) /\
  resolveLanguage None None "print(1)" = (None, []).
Proof.
  split.
  - exact (@X2_no_code_or_no_pygments (Some (fun _ => Lexer "Python"))
             (Some (mkUploadedFile "empty.rs" "")) "" (or_introl eq_refl)).
  - exact (@X2_no_code_or_no_pygments None None "print(1)" (or_intror eq_refl)).
Defined.

(** ** The tables and the supported languages *)

Lemma is_language_In (tag : string) : is_language tag = true <-> In tag LANGUAGES.
Proof.
  unfold is_language. rewrite existsb_exists. split.
  - intros [x [Hin Heq]]. apply String.eqb_eq in Heq. now subst.
  - intros Hin. exists tag. split; [exact Hin | apply String.eqb_refl].
Qed.

Lemma dict_values_languages (d : Dict) (k v : string) :
  forallb (fun kv => is_language (snd kv)) d = true ->
  dict_get d k = Some v -> is_language v = true.
Proof.
  induction d as [|[k' v'] rest IH]; simpl; intros Hd Hg.
  - discriminate.
  - apply andb_prop in Hd as [Hv Hrest].
    destruct (String.eqb k' k).
    + now inversion Hg; subst.
    + now apply IH.
Qed.

Lemma first_simple_match_languages (d : Dict) (x v : string) :
  forallb (fun kv => is_language (snd kv)) d = true ->
  first_simple_match d x = Some v -> is_language v = true.
Proof.
  induction d as [|[k' v'] rest IH]; simpl; intros Hd Hg.
  - discriminate.
  - apply andb_prop in Hd as [Hv Hrest].
    destruct (String.eqb _ x).
    + now inversion Hg; subst.
    + now apply IH.
Qed.

Lemma extension_tags_languages :
  forallb (fun kv => is_language (snd kv)) EXTENSION_TO_LANG = true.
Proof. reflexivity. Qed.

Lemma alias_tags_languages :
  forallb (fun kv => is_language (snd kv)) pygments_to_lang = true.
Proof. reflexivity. Qed.

Lemma language_truthy (tag : string) : is_language tag = true -> PyStr.truthy tag = true.
Proof.
  intros H. destruct tag; [discriminate H | reflexivity].
Qed.

(** The three stages and the fallback of lines 206-218, seen from the
    result: it is a supported language, or the name itself. *)
Lemma map_pygments_name_cases (p : string) :
  exists r, map_pygments_name p = Some r /\ (is_language r = true \/ r = p).
Proof.
  destruct (dict_get pygments_to_lang p) as [v|] eqn:E1.
  - exists v. split; [now apply map_pygments_name_found|].
    left. exact (dict_values_languages _ _ alias_tags_languages E1).
  - destruct (dict_get pygments_to_lang (PyStr.lower p)) as [v|] eqn:E2.
    + exists v.
      pose proof (dict_values_languages _ _ alias_tags_languages E2) as Hl.
      split; [|now left].
      unfold map_pygments_name. cbv zeta. rewrite E1.
      cbn [PyStr.truthy_opt negb]. rewrite E2.
      destruct v as [|c t]; [discriminate Hl|]. reflexivity.
    + destruct (first_simple_match pygments_to_lang
                  (PyStr.re_sub_non_alnum (PyStr.lower p))) as [v|] eqn:E3.
      * exists v.
        pose proof (first_simple_match_languages _ _ alias_tags_languages E3) as Hl.
        split; [|now left].
        apply map_pygments_name_simple; trivial. now apply language_truthy.
      * exists p. split; [|now right]. now apply map_pygments_name_fallback.
Qed.

(** X3: a detected language is one of the supported [LANGUAGES], unless it
    is the fallback of line 218, the lower-cased name of the lexer that the
    guessing returned for this code. *)
Theorem X3_detected_language_is_supported_or_lexer_name
        (guess_lexer : option (string -> GuessResult))
        (file : option UploadedFile) (messy_code lang : string) :
  fst (resolveLanguage guess_lexer file messy_code) = Some lang ->
  In lang LANGUAGES \/
  exists guess lexer_name,
    guess_lexer = Some guess /\
    guess messy_code = Lexer lexer_name /\
    lang = PyStr.lower lexer_name.
Proof.
  unfold resolveLanguage, language_by_lexer. intros H.
  assert (Hext : language_by_extension file = Some lang -> In lang LANGUAGES).
  { unfold language_by_extension. destruct file as [f|]; [|discriminate].
    destruct (PyStr.truthy (name f)); [|discriminate].
    cbv zeta. destruct (dict_mem _ _); [|discriminate].
    intros Hg. apply is_language_In.
    exact (dict_values_languages _ _ extension_tags_languages Hg). }
  destruct guess_lexer as [guess|]; [|left; now apply Hext].
  destruct (negb _ && _); [|left; now apply Hext].
  unfold try_guess in H. destruct (guess messy_code) as [lexer_name|] eqn:Hg.
  - cbn [fst] in H. unfold normalize in H.
    destruct (map_pygments_name_cases (PyStr.lower lexer_name)) as [r [Hr Hcase]].
    rewrite Hr in H. inversion H; subst r.
    destruct Hcase as [Hl | ->].
    + left. now apply is_language_In.
    + right. now exists guess, lexer_name.
  - discriminate H.
Qed.

Lemma X3_detected_language_is_supported_or_lexer_name_witness :
  In "cpp" LANGUAGES \/
  exists guess lexer_name,
    Some (fun _ : string => Lexer "C++") = Some guess /\
    guess "int x;" = Lexer lexer_name /\
    "cpp" = PyStr.lower lexer_name.
Proof.
  exact (@X3_detected_language_is_supported_or_lexer_name
           (Some (fun _ => Lexer "C++")) None "int x;" "cpp" eq_refl).
Defined.

Lemma normalize_language (tag : string) :
  In tag LANGUAGES -> normalize tag = Some tag.
Proof.
  unfold LANGUAGES. intros Hin.
  repeat (destruct Hin as [Hin|Hin]; [subst tag; reflexivity|]).
  destruct Hin.
Qed.

(** X4: the normalization of a lexer name always gives a name, and one
    that it leaves as it is: normalizing twice is normalizing once. *)
Theorem X4_normalize_idempotent (lexer_name : string) :
  exists tag, normalize lexer_name = Some tag /\ normalize tag = Some tag.
Proof.
  unfold normalize at 1.
  destruct (map_pygments_name_cases (PyStr.lower lexer_name)) as [r [Hr Hcase]].
  exists r. split; [exact Hr|].
  destruct Hcase as [Hl | ->].
  - apply normalize_language. now apply is_language_In.
  - unfold normalize. rewrite lower_idem. exact Hr.
Qed.

(** X5: the normalization does not see the letter case of the lexer name:
    two names with the same lower-cased form have the same normalization,
    and so does a name and its lower-cased form. *)
Theorem X5_normalize_ignores_case (name1 name2 : string) :
  PyStr.lower name1 = PyStr.lower name2 ->
  normalize name1 = normalize name2 /\
  normalize (PyStr.lower name1) = normalize name1.
Proof.
  intros H. unfold normalize. rewrite lower_idem. now rewrite H.
Qed.

Lemma X5_normalize_ignores_case_witness :
  normalize "TypeScript" = normalize "TYPESCRIPT" /\
  normalize (PyStr.lower "TypeScript") = normalize "TypeScript".
Proof.
  exact (@X5_normalize_ignores_case "TypeScript" "TYPESCRIPT" eq_refl).
Defined.

(** X6: the two tables and [LANGUAGES] agree: every tag of either table is
    a supported language, and every supported language is the tag of some
    file extension and is normalized to itself. *)
Theorem X6_tables_agree_with_languages :
  (forall key tag, In (key, tag) EXTENSION_TO_LANG -> In tag LANGUAGES) /\
  (forall key tag, In (key, tag) pygments_to_lang -> In tag LANGUAGES) /\
  (forall tag, In tag LANGUAGES ->
               normalize tag = Some tag /\
               exists ext, dict_get EXTENSION_TO_LANG ext = Some tag).
Proof.
  split; [|split].
  - intros key tag Hin. apply is_language_In.
    pose proof extension_tags_languages as H. rewrite forallb_forall in H.
    exact (H (key, tag) Hin).
  - intros key tag Hin. apply is_language_In.
    pose proof alias_tags_languages as H. rewrite forallb_forall in H.
    exact (H (key, tag) Hin).
  - intros tag Hin. split; [now apply normalize_language|].
    assert (Hex : existsb (fun kv => String.eqb (snd kv) tag) EXTENSION_TO_LANG = true).
    { unfold LANGUAGES in Hin.
      repeat (destruct Hin as [Hin|Hin]; [subst tag; reflexivity|]).
      destruct Hin. }
    apply existsb_exists in Hex as [[ext v] [Hk Hv]].
    apply String.eqb_eq in Hv. cbn [snd] in Hv. subst v.
    assert (Hget : forall d, NoDup (map fst d) -> In (ext, tag) d ->
                             dict_get d ext = Some tag).
    { induction d as [|[k' v'] rest IH]; intros Hnd Hi; [destruct Hi|].
      simpl. inversion Hnd as [|? ? Hnotin Hnd']; subst.
      destruct Hi as [Hi|Hi].
      - inversion Hi; subst. now rewrite String.eqb_refl.
      - destruct (String.eqb k' ext) eqn:Ek.
        + apply String.eqb_eq in Ek. subst k'. exfalso. apply Hnotin.
          change ext with (fst (ext, tag)). now apply in_map.
        + now apply IH. }
    exists ext. apply Hget; [exact extension_keys_distinct | exact Hk].
Qed.

(** ** The extension of a file name *)

Lemma rfind_from_absent (c : ascii) (s : string) :
  contains c s = false -> forall i found, PyStr.rfind_from c s i found = found.
Proof.
  induction s as [|d r IH]; simpl; intros H i found.
  - reflexivity.
  - apply orb_false_elim in H as [Hd Hr]. rewrite Hd. now apply IH.
Qed.

(** [rfind] answers with what it was given, or with an index of the text. *)
Lemma rfind_from_range (c : ascii) (s : string) :
  forall i found,
    PyStr.rfind_from c s i found = found \/
    (i <= PyStr.rfind_from c s i found < i + Z.of_nat (String.length s))%Z.
Proof.
  induction s as [|d r IH]; intros i found.
  - now left.
  - cbn [PyStr.rfind_from String.length].
    destruct (Ascii.eqb d c).
    + right. destruct (IH (i + 1)%Z i) as [-> | H]; lia.
    + destruct (IH (i + 1)%Z found) as [-> | H]; [now left | right; lia].
Qed.

Lemma rfind_bounds (c : ascii) (s : string) :
  (-1 <= PyStr.rfind c s < Z.of_nat (String.length s))%Z.
Proof.
  unfold PyStr.rfind. destruct (rfind_from_range c s 0 (-1)) as [-> | H]; lia.
Qed.

(** X7: a file name without a dot has no extension, so the language of
    such an upload is never detected from its name. *)
Theorem X7_no_dot_no_extension (f : UploadedFile) :
  contains "."%char (name f) = false ->
  PyStr.splitext (name f) = (name f, "") /\
  language_by_extension (Some f) = None.
Proof.
  intros H.
  assert (Hs : PyStr.splitext (name f) = (name f, "")).
  { unfold PyStr.splitext. cbv zeta.
    unfold PyStr.rfind at 2. rewrite (rfind_from_absent _ _ H).
    pose proof (rfind_bounds "/"%char (name f)) as Hb.
    assert (Hlt : (PyStr.rfind "/" (name f) <? -1)%Z = false) by (apply Z.ltb_ge; lia).
    unfold PyStr.rfind at 1 in Hlt. unfold PyStr.rfind at 1.
    now rewrite Hlt. }
  split; [exact Hs|].
  unfold language_by_extension. rewrite Hs. cbn [snd PyStr.lower].
  destruct (PyStr.truthy (name f)); reflexivity.
Qed.

Lemma X7_no_dot_no_extension_witness :
  language_by_extension (Some (mkUploadedFile "Makefile" "all:")) = None.
Proof.
  exact (proj2 (@X7_no_dot_no_extension (mkUploadedFile "Makefile" "all:") eq_refl)).
Defined.

Lemma substring_split (s : string) :
  forall n, n <= String.length s ->
            (String.substring 0 n s ++ String.substring n (String.length s - n) s)%string = s.
Proof.
  induction s as [|c r IH]; intros n Hn.
  - simpl in Hn. assert (n = 0) by lia. subst n. reflexivity.
  - destruct n as [|n].
    + cbn [String.substring String.length Nat.sub String.append].
      f_equal. specialize (IH 0 (Nat.le_0_l _)).
      rewrite Nat.sub_0_r in IH.
      assert (H0 : forall t, String.substring 0 0 t = "") by (intros []; reflexivity).
      rewrite H0 in IH. exact IH.
    + cbn [String.substring String.length Nat.sub String.append].
      f_equal. apply IH. simpl in Hn. lia.
Qed.

(** X8: [splitext] cuts the name in two and loses nothing: the root
    followed by the extension is the name. *)
Theorem X8_splitext_round_trip (p : string) :
  (fst (PyStr.splitext p) ++ snd (PyStr.splitext p))%string = p.
Proof.
  unfold PyStr.splitext. cbv zeta.
  destruct ((PyStr.rfind "/" p <? PyStr.rfind "." p)%Z && _) eqn:E.
  - cbn [fst snd]. apply andb_prop in E as [Hlt _]. apply Z.ltb_lt in Hlt.
    pose proof (rfind_bounds "/"%char p) as Hs.
    pose proof (rfind_bounds "."%char p) as Hd.
    unfold PyStr.slice_to, PyStr.slice_from. apply substring_split. lia.
  - cbn [fst snd]. induction p as [|c r IH]; [reflexivity|]. simpl. f_equal.
    clear. induction r as [|d r IH]; [reflexivity|]. simpl. now f_equal.
Qed.

(** ** Runs on arbitrary inputs *)

Lemma state_of_bind_done {A B} (m : Script A) (k : A -> Script B) s a s1 t1 :
  m s = (Done a, s1, t1) -> state_of (bind m k s) = state_of (k a s1).
Proof.
  intros H. rewrite (@bind_done _ _ _ _ _ _ _ _ H). now destruct (k a s1) as [[o s2] t2].
Qed.

Lemma set_history_same (s : SessionState) : set_history (history s) s = s.
Proof. now destruct s. Qed.

(** The revert handler always returns, and only touches the history. *)
Lemma revert_handler_total (inp : Inputs) (loc : Locals) (s : SessionState) :
  exists loc' t,
    revert_handler inp loc s
    = (Done loc', set_history (after_revert inp (history s)) s, t) /\
    Forall (fun o => is_completion_call (fst o) = false
                     /\ is_comparison_or_download (fst o) = false) t.
Proof.
  unfold after_revert.
  destruct (revert_btn inp) eqn:Hb; cbn [andb].
  - destruct (1 <? length (history s))%nat eqn:Hlen.
    + apply Nat.ltb_lt in Hlen. destruct (two_last _ Hlen) as [h [prev [cur Hh]]].
      rewrite (@revert_handler_pop inp loc s h prev cur Hb Hh).
      assert (Hpop : pop (history s) = h ++ [prev]).
      { rewrite Hh. change (h ++ [prev; cur]) with (h ++ [prev] ++ [cur]).
        rewrite app_assoc. apply pop_app. }
      rewrite Hpop. eexists. eexists. split; [reflexivity|].
      repeat constructor.
    + apply Nat.ltb_ge in Hlen.
      rewrite (@revert_handler_nothing inp loc s Hb Hlen).
      rewrite set_history_same. eexists. eexists. split; [reflexivity|].
      repeat constructor.
  - rewrite (@revert_handler_off inp loc s Hb). rewrite set_history_same.
    eexists. eexists. split; [reflexivity|]. constructor.
Qed.

(** What is left of the handlers after the clear flag is reset. *)
Lemma handlers_state chain explain_chain (inp : Inputs) (loc : Locals) (s : SessionState) :
  exists loc',
    state_of (handlers chain explain_chain inp loc s)
    = if clear_btn inp
      then mkSession [] true "" (show_explanation_only s)
      else state_of
             (bind (optimize_handler chain inp loc')
                   (fun loc1 => bind (explain_handler explain_chain inp loc1)
                                     (fun _ => comparison_section explain_chain inp loc1))
                   (mkSession (after_revert inp (history s)) false
                              (text_input_value s) (show_explanation_only s))).
Proof.
  destruct (revert_handler_total inp loc s) as [loc' [t [Hr _]]].
  exists loc'. unfold handlers.
  rewrite (@state_of_bind_done _ _ _ _ _ _ _ _ Hr).
  destruct (clear_btn inp) eqn:Hc.
  - rewrite (@bind_interrupted _ _ _ _ _ _ _ _ (clear_handler_on inp _ Hc)). reflexivity.
  - rewrite (@state_of_bind_done _ _ _ _ _ _ _ _ (clear_handler_off inp _ Hc)).
    rewrite (@state_of_bind_done _ _ _ _ _ _ _ _ (reset_clear_flag_run _)).
    reflexivity.
Qed.

(** X9: in every session that the script can produce, each entry of the
    history holds an original code that is not blank. *)
Theorem X9_stored_originals_are_not_blank (s : SessionState) (e : HistoryEntry) :
  reachable s -> In e (history s) -> PyStr.truthy (PyStr.strip (messy e)) = true.
Proof.
  intros Hreach Hin.
  pose proof (reachable_originals_not_blank Hreach) as Hall.
  unfold originals_not_blank in Hall. rewrite Forall_forall in Hall.
  now apply Hall.
Qed.

Lemma X9_stored_originals_are_not_blank_witness :
  PyStr.truthy (PyStr.strip (messy (mkEntry "x = 1" "" None))) = true.
Proof.
  exact (@X9_stored_originals_are_not_blank blank_result_session
           (mkEntry "x = 1" "" None) blank_result_session_reachable
           (or_introl eq_refl)).
Defined.

Lemma run_clear_triggered
      guess_lexer chain explain_chain (inp : Inputs) (s : SessionState) :
  clear_triggered (state_of (script guess_lexer chain explain_chain inp s))
  = clear_btn inp.
Proof.
  rewrite script_state.
  destruct (handlers_state chain explain_chain inp (entry_locals guess_lexer inp s) s)
    as [loc' ->].
  destruct (clear_btn inp); [reflexivity|].
  assert (Hk : keeps (fun s => clear_triggered s = false)
                     (bind (optimize_handler chain inp loc')
                           (fun loc1 => bind (explain_handler explain_chain inp loc1)
                                             (fun _ => comparison_section explain_chain inp loc1)))).
  { unfold optimize_handler, explain_handler, comparison_section. keeps_steps. }
  now apply Hk.
Qed.

Lemma run_text_input_value
      guess_lexer chain explain_chain (inp : Inputs) (s : SessionState) :
  text_input_value (state_of (script guess_lexer chain explain_chain inp s))
  = if clear_btn inp then "" else text_input_value s.
Proof.
  rewrite script_state.
  destruct (handlers_state chain explain_chain inp (entry_locals guess_lexer inp s) s)
    as [loc' ->].
  destruct (clear_btn inp); [reflexivity|].
  assert (Hk : keeps (fun s' => text_input_value s' = text_input_value s)
                     (bind (optimize_handler chain inp loc')
                           (fun loc1 => bind (explain_handler explain_chain inp loc1)
                                             (fun _ => comparison_section explain_chain inp loc1)))).
  { unfold optimize_handler, explain_handler, comparison_section. keeps_steps. }
  now apply Hk.
Qed.

(** The history after a run, on any inputs: emptied by a clear; otherwise
    what the revert handler left, with at most one entry added, whose
    original code is not blank. *)
Lemma run_history
      guess_lexer chain explain_chain (inp : Inputs) (s : SessionState) :
  let after := history (state_of (script guess_lexer chain explain_chain inp s)) in
  if clear_btn inp
  then after = []
  else after = after_revert inp (history s) \/
       exists entry,
         optimize_btn inp = true /\
         PyStr.truthy (PyStr.strip (messy entry)) = true /\
         after = after_revert inp (history s) ++ [entry].
Proof.
  cbv zeta. rewrite script_state.
  destruct (handlers_state chain explain_chain inp (entry_locals guess_lexer inp s) s)
    as [loc' ->].
  destruct (clear_btn inp); [reflexivity|].
  assert (Hk : forall H loc1,
             keeps (fun s' => history s' = H)
                   (bind (explain_handler explain_chain inp loc1)
                         (fun _ => comparison_section explain_chain inp loc1))).
  { intros H loc1. unfold explain_handler, comparison_section. keeps_steps. }
  set (s1 := mkSession (after_revert inp (history s)) false (text_input_value s)
                       (show_explanation_only s)).
  destruct (optimize_btn inp) eqn:Hb.
  - destruct (PyStr.truthy (PyStr.strip (messy_code loc'))) eqn:Hc.
    + destruct (chain (messy_code loc') (detected_language loc')) as [result|] eqn:Hr.
      * rewrite (@state_of_bind_done _ _ _ _ _ _ _ _
                   (@optimize_handler_returns chain inp loc' s1 result Hb Hc Hr)).
        right. exists (mkEntry (messy_code loc') (text_of result) (detected_language loc')).
        split; [reflexivity|]. split; [exact Hc|].
        now apply Hk.
      * rewrite (@bind_interrupted _ _ _ _ _ _ _ _
                   (@optimize_handler_raises chain inp loc' s1 Hb Hc Hr)).
        now left.
    + rewrite (@state_of_bind_done _ _ _ _ _ _ _ _
                 (@optimize_handler_off chain inp loc' s1 ltac:(now rewrite Hb, Hc))).
      left. now apply Hk.
  - rewrite (@state_of_bind_done _ _ _ _ _ _ _ _
               (@optimize_handler_off chain inp loc' s1 ltac:(now rewrite Hb))).
    left. now apply Hk.
Qed.

(** ** Runs whose upload does not decode *)

Lemma run_script_undecodable guess_lexer chain explain_chain upload inp s :
  undecodable upload = true ->
  run_script guess_lexer chain explain_chain upload inp s = (Interrupted Exception, s, []).
Proof.
  unfold undecodable, run_script. destruct upload as [u|]; [|discriminate].
  destruct (read_decode u); [discriminate | reflexivity].
Qed.

Lemma run_script_decodable guess_lexer chain explain_chain upload inp :
  undecodable upload = false ->
  exists f,
    run_script guess_lexer chain explain_chain upload inp
    = script guess_lexer chain explain_chain (with_upload f inp).
Proof.
  unfold undecodable, run_script. destruct upload as [u|].
  - destruct (read_decode u) as [text|]; [|discriminate].
    intros _. eexists. reflexivity.
  - intros _. eexists. reflexivity.
Qed.

Lemma run_script_reachable guess_lexer chain explain_chain upload inp s :
  reachable s ->
  reachable (state_of (run_script guess_lexer chain explain_chain upload inp s)).
Proof.
  intros Hs. destruct (undecodable upload) eqn:E.
  - now rewrite run_script_undecodable.
  - destruct (run_script_decodable guess_lexer chain explain_chain upload inp E) as [f ->].
    now apply reach_run.
Qed.

(** X13: a run whose upload does not decode ends at line 95 and leaves the
    clear flag as it was; every other run, whatever the buttons, the
    session before, and the way the run ends, leaves the flag on exactly
    when the clear button was pressed in it: on after a clear, off after
    every other run. *)
Theorem X13_clear_flag_lives_one_run
        guess_lexer chain explain_chain upload (inp : Inputs) (s : SessionState) :
  clear_triggered (state_of (run_script guess_lexer chain explain_chain upload inp s))
  = if undecodable upload then clear_triggered s else clear_btn inp.
Proof.
  destruct (undecodable upload) eqn:E.
  - now rewrite run_script_undecodable.
  - destruct (run_script_decodable guess_lexer chain explain_chain upload inp E) as [f ->].
    now rewrite run_clear_triggered.
Qed.

(** X21: the script itself never writes the typed text except to empty it:
    a run whose upload does not decode, and every run in which the clear
    button is not pressed, leave [text_input_value] as it was; a clear
    whose upload, if any, decodes empties it. *)
Theorem X21_typed_text_is_only_cleared
        guess_lexer chain explain_chain upload (inp : Inputs) (s : SessionState) :
  text_input_value (state_of (run_script guess_lexer chain explain_chain upload inp s))
  = if undecodable upload then text_input_value s
    else if clear_btn inp then "" else text_input_value s.
Proof.
  destruct (undecodable upload) eqn:E.
  - now rewrite run_script_undecodable.
  - destruct (run_script_decodable guess_lexer chain explain_chain upload inp E) as [f ->].
    now rewrite run_text_input_value.
Qed.

(** X14: what a run can do to the history: a run whose upload does not
    decode ends at line 95 and leaves it as it was; otherwise a clear
    empties it, and without a clear it is what the revert handler left (the
    history without its last entry when revert is pressed on more than one
    entry, the history as it was otherwise), with at most one entry added
    at the end, by the optimize handler, whose original code is not
    blank. *)
Theorem X14_history_after_a_run
        guess_lexer chain explain_chain upload (inp : Inputs) (s : SessionState) :
  let after :=
    history (state_of (run_script guess_lexer chain explain_chain upload inp s)) in
  if undecodable upload
  then after = history s
  else if clear_btn inp
       then after = []
       else after = after_revert inp (history s) \/
            exists entry,
              optimize_btn inp = true /\
              PyStr.truthy (PyStr.strip (messy entry)) = true /\
              after = after_revert inp (history s) ++ [entry].
Proof.
  cbv zeta. destruct (undecodable upload) eqn:E.
  - now rewrite run_script_undecodable.
  - destruct (run_script_decodable guess_lexer chain explain_chain upload inp E) as [f ->].
    exact (run_history guess_lexer chain explain_chain (with_upload f inp) s).
Qed.

Lemma after_revert_not_empty (inp : Inputs) (h : list HistoryEntry) :
  h <> [] -> after_revert inp h <> [].
Proof.
  intros Hne. unfold after_revert.
  destruct (revert_btn inp && (1 <? length h)%nat) eqn:E; [|exact Hne].
  apply andb_prop in E as [_ Hlen]. apply Nat.ltb_lt in Hlen.
  destruct (two_last _ Hlen) as [h' [prev [cur ->]]].
  change (h' ++ [prev; cur]) with (h' ++ [prev] ++ [cur]).
  rewrite app_assoc, pop_app. now destruct h'.
Qed.

(** X15: once the history holds an entry, only a clear empties it: after
    any run in which the clear button is not pressed, whatever else is
    pressed, a history that was not empty is not empty, and it has lost at
    most one entry and gained at most one. *)
Theorem X15_only_clear_empties_the_history
        guess_lexer chain explain_chain (inp : Inputs) (s : SessionState) :
  clear_btn inp = false ->
  history s <> [] ->
  let after := history (state_of (script guess_lexer chain explain_chain inp s)) in
  after <> [] /\
  length (history s) - 1 <= length after <= length (history s) + 1.
Proof.
  intros Hc Hne after. subst after.
  pose proof (run_history guess_lexer chain explain_chain inp s) as H.
  cbv zeta in H. rewrite Hc in H.
  pose proof (after_revert_not_empty inp Hne) as Hbase.
  assert (Hlen : length (history s) - 1 <= length (after_revert inp (history s))
                 <= length (history s)).
  { unfold after_revert.
    destruct (revert_btn inp && (1 <? length (history s))%nat) eqn:E; [|lia].
    apply andb_prop in E as [_ Hl]. apply Nat.ltb_lt in Hl.
    destruct (two_last _ Hl) as [h' [prev [cur ->]]].
    change (h' ++ [prev; cur]) with (h' ++ [prev] ++ [cur]).
    rewrite app_assoc, pop_app, !length_app. simpl. lia. }
  destruct H as [-> | [entry [_ [_ ->]]]].
  - split; [exact Hbase | lia].
  - split.
    + intros Habs. apply app_eq_nil in Habs as [_ Habs]. discriminate Habs.
    + rewrite length_app. simpl. lia.
Qed.

Lemma X15_only_clear_empties_the_history_witness :
  let chain := fun (_ : string) (_ : option string) => Raises in
  let s := mkSession [mkEntry "x=1" "x = 1" None] false "" false in
  history (state_of (script None chain chain (click Revert None (fun v => v)) s)) <> [].
Proof.
  intros chain s.
  assert (Hne : history s <> []) by discriminate.
  exact (proj1 (@X15_only_clear_empties_the_history None chain chain
                  (click Revert None (fun v => v)) s eq_refl Hne)).
Defined.

(** ** Failures of the chains *)

Lemma completion_calls_app (t1 t2 : list Obs) :
  completion_calls (t1 ++ t2) = completion_calls t1 + completion_calls t2.
Proof.
  unfold completion_calls, events. now rewrite map_app, filter_app, length_app.
Qed.

Lemma completion_calls_none (t : list Obs) :
  Forall (fun e => is_completion_call e = false) (events t) ->
  completion_calls t = 0.
Proof.
  unfold completion_calls. induction (events t) as [|e l IH]; intros H.
  - reflexivity.
  - inversion H as [|? ? He Hl]; subst. simpl. rewrite He. now apply IH.
Qed.

Lemma completion_calls_entry guess_lexer inp s :
  completion_calls (entry_trace guess_lexer inp s) = 0.
Proof. apply completion_calls_none, no_completion_call_at_entry. Qed.

(** X10: an optimize whose chain raises stores nothing: the run ends with
    the exception after the one call, the history, the typed text and
    [show_explanation_only] are as before, and no comparison is rendered,
    not even that of an earlier entry. *)
Theorem X10_failed_optimize_stores_nothing
        guess_lexer chain explain_chain file text_area (s : SessionState) :
  let inp := click OptimizeCode file text_area in
  let code := pasted_code inp s in
  let lang := resolved guess_lexer inp s in
  let run := script guess_lexer chain explain_chain inp s in
  PyStr.truthy (PyStr.strip code) = true ->
  chain code lang = Raises ->
  outcome_of run = Interrupted Exception /\
  history (state_of run) = history s /\
  text_input_value (state_of run) = text_input_value s /\
  show_explanation_only (state_of run) = show_explanation_only s /\
  completion_calls (trace_of run) = 1 /\
  Forall (fun e => is_comparison_or_download e = false) (events (trace_of run)).
Proof.
  intros inp code lang run Hc Hr. subst run.
  rewrite script_state, script_outcome, script_trace.
  pose proof (@handlers_optimize_raises chain explain_chain file text_area
                (entry_locals guess_lexer inp s) s Hc Hr) as H.
  fold inp in H. rewrite H.
  unfold state_of, outcome_of, trace_of. cbn [fst snd].
  split; [reflexivity|]. split; [reflexivity|]. split; [reflexivity|].
  split; [reflexivity|]. split.
  - rewrite completion_calls_app, completion_calls_entry. reflexivity.
  - unfold events. rewrite map_app.
    apply Forall_app. split; [apply events_entry_not_rendered|].
    repeat constructor.
Qed.

Lemma X10_failed_optimize_stores_nothing_witness :
  let chain := fun (_ : string) (_ : option string) => Raises in
  let s := mkSession [mkEntry "x=1" "x = 1" None] false "x=1" false in
  let run := script None chain chain (click OptimizeCode None (fun v => v)) s in
  outcome_of run = Interrupted Exception /\ history (state_of run) = history s.
Proof.
  intros chain s run.
  pose proof (@X10_failed_optimize_stores_nothing None chain chain None (fun v => v) s
                eq_refl eq_refl) as H.
  split; [exact (proj1 H) | exact (proj1 (proj2 H))].
Defined.

Lemma comparison_view_showing (s : SessionState) :
  show_explanation_only s = true -> comparison_view s = None.
Proof.
  intros H. unfold comparison_view. rewrite H.
  destruct (last_entry (history s)); [|reflexivity].
  cbn [negb]. now rewrite andb_false_r.
Qed.

(** X22: an explain whose chain raises ends with the exception and leaves
    [show_explanation_only] on: the reset of line 310 is not reached. *)
Theorem X22_failed_explain_leaves_the_flag_on
        guess_lexer chain explain_chain file text_area (s : SessionState) :
  let inp := click ExplainCode file text_area in
  let run := script guess_lexer chain explain_chain inp s in
  PyStr.truthy (PyStr.strip (pasted_code inp s)) = true ->
  explain_chain (pasted_code inp s) (resolved guess_lexer inp s) = Raises ->
  outcome_of run = Interrupted Exception /\
  show_explanation_only (state_of run) = true /\
  history (state_of run) = history s /\
  completion_calls (trace_of run) = 1.
Proof.
  intros inp run Hc Hr. subst run.
  rewrite script_state, script_outcome, script_trace.
  pose proof (@handlers_explain_raises chain explain_chain file text_area
                (entry_locals guess_lexer inp s) s Hc Hr) as H.
  fold inp in H. rewrite H.
  unfold state_of, outcome_of, trace_of. cbn [fst snd].
  split; [reflexivity|]. split; [reflexivity|]. split; [reflexivity|].
  rewrite completion_calls_app, completion_calls_entry. reflexivity.
Qed.

Lemma X22_failed_explain_leaves_the_flag_on_witness :
  let chain := fun (_ : string) (_ : option string) => Raises in
  let run := script None chain chain (click ExplainCode None (fun _ => "x=1"))
                    fresh_session in
  show_explanation_only (state_of run) = true.
Proof.
  intros chain run.
  exact (proj1 (proj2 (@X22_failed_explain_leaves_the_flag_on None chain chain None
                         (fun _ => "x=1") fresh_session eq_refl eq_refl))).
Defined.

(** X11: while [show_explanation_only] is on, as a failed explain leaves
    it, a run with no button pressed and a revert render neither the
    comparison nor the download and leave the flag on; a successful
    optimize turns it off. *)
Theorem X11_flag_left_on_hides_the_comparison
        guess_lexer chain explain_chain file text_area (s : SessionState) :
  show_explanation_only s = true ->
  (forall b, b = NoButton \/ b = Revert ->
             let run := script guess_lexer chain explain_chain (click b file text_area) s in
             Forall (fun e => is_comparison_or_download e = false) (events (trace_of run)) /\
             show_explanation_only (state_of run) = true) /\
  (forall result,
      let inp := click OptimizeCode file text_area in
      PyStr.truthy (PyStr.strip (pasted_code inp s)) = true ->
      chain (pasted_code inp s) (resolved guess_lexer inp s) = Returns result ->
      show_explanation_only (state_of (script guess_lexer chain explain_chain inp s))
      = false).
Proof.
  intros Hshow. split.
  - intros b Hb run. subst run. rewrite script_state, script_trace.
    unfold events. rewrite map_app.
    assert (Hnone : comparison_view s = None) by now apply comparison_view_showing.
    destruct Hb as [-> | ->].
    + rewrite (@handlers_idle chain explain_chain file text_area NoButton _ s
                 eq_refl eq_refl eq_refl eq_refl).
      rewrite Hnone. unfold state_of, trace_of. cbn [fst snd]. split; [|exact Hshow].
      apply Forall_app. split; [apply events_entry_not_rendered | constructor].
    + destruct (Nat.le_gt_cases (length (history s)) 1) as [Hlen | Hlen].
      * rewrite (@handlers_revert_nothing chain explain_chain file text_area _ s Hlen).
        rewrite Hnone. unfold state_of, trace_of. cbn [fst snd]. split; [|exact Hshow].
        apply Forall_app. split; [apply events_entry_not_rendered | repeat constructor].
      * destruct (two_last _ Hlen) as [h [prev [cur Hh]]].
        rewrite (@handlers_revert_pop chain explain_chain file text_area _ s h prev cur Hh).
        rewrite comparison_view_showing by exact Hshow.
        unfold state_of, trace_of. cbn [fst snd]. split; [|exact Hshow].
        apply Forall_app. split; [apply events_entry_not_rendered | repeat constructor].
  - intros result inp Hc Hr.
    destruct (@optimize_run guess_lexer chain explain_chain file text_area s result Hc Hr)
      as [Hs _].
    fold inp in Hs. now rewrite Hs.
Qed.

Lemma X11_flag_left_on_hides_the_comparison_witness :
  let chain := fun (_ : string) (_ : option string) => Raises in
  let s := mkSession [mkEntry "x=1" "x = 1" None] false "x=1" true in
  let run := script None chain chain (click NoButton None (fun v => v)) s in
  events (trace_of run) = [TextArea "x=1"] /\
  Forall (fun e => is_comparison_or_download e = false) (events (trace_of run)).
Proof.
  intros chain s run. split; [reflexivity|].
  exact (proj1 (proj1 (@X11_flag_left_on_hides_the_comparison None chain chain None
                         (fun v => v) s eq_refl)
                      NoButton (or_introl eq_refl))).
Defined.

(** ** Optimize, then revert *)

(** X12: revert undoes an optimize exactly when there was an entry before
    it: after a successful optimize on a history that was not empty, a
    revert gives back that history, the code, cleaned output and language
    of the run are those of its last entry, and the comparison of that
    entry is rendered when its cleaned code and its original code are not
    blank, and nothing of it otherwise; after the first optimize, on an
    empty history, a revert keeps the new entry and warns that there is no
    previous version. *)
Theorem X12_revert_after_optimize
        guess_lexer chain explain_chain file text_area
        guess_lexer' chain' explain_chain' file' text_area'
        (s : SessionState) (result : ChainResult) :
  let inp := click OptimizeCode file text_area in
  let code := pasted_code inp s in
  let lang := resolved guess_lexer inp s in
  let s1 := state_of (script guess_lexer chain explain_chain inp s) in
  let run := script guess_lexer' chain' explain_chain' (click Revert file' text_area') s1 in
  PyStr.truthy (PyStr.strip code) = true ->
  chain code lang = Returns result ->
  (history s <> [] ->
   history (state_of run) = history s /\
   exists prev,
     last_entry (history s) = Some prev /\
     outcome_of run = Done (mkLocals (messy prev) (language prev) (Some (cleaned prev))) /\
     filter is_comparison_or_download (events (trace_of run))
     = if PyStr.truthy (PyStr.strip (cleaned prev))
          && PyStr.truthy (PyStr.strip (messy prev))
       then [Comparison (messy prev) (cleaned prev) (language prev);
             Download (cleaned prev)
                      ("optimized_code." ++ str_of_language (language prev))]
       else []) /\
  (history s = [] ->
   history (state_of run) = [mkEntry code (text_of result) lang] /\
   In (Notice NoPreviousVersion) (events (trace_of run))).
Proof.
  intros inp code lang s1 run Hc Hr.
  destruct (@optimize_run guess_lexer chain explain_chain file text_area s result Hc Hr)
    as [Hs1 _].
  fold inp code lang s1 in Hs1. subst run.
  rewrite script_state, script_outcome, script_trace.
  split.
  - intros Hne.
    destruct (exists_last Hne) as [h [prev Hh]].
    assert (Hh1 : history s1 = h ++ [prev; mkEntry code (text_of result) lang]).
    { rewrite Hs1. cbn [history]. rewrite Hh. now rewrite <- app_assoc. }
    assert (Hshow : show_explanation_only s1 = false) by now rewrite Hs1.
    rewrite (@handlers_revert_pop chain' explain_chain' file' text_area' _ s1 h prev _ Hh1).
    rewrite comparison_view_popped, Hshow. cbn [negb]. rewrite andb_true_r.
    pose proof (filter_none _ (events_entry_not_rendered guess_lexer'
                                 (click Revert file' text_area') s1)) as Hnone.
    destruct (PyStr.truthy (PyStr.strip (cleaned prev))
              && PyStr.truthy (PyStr.strip (messy prev))) eqn:Eview;
      unfold state_of, outcome_of, trace_of; cbn [fst snd history];
      (split; [now rewrite Hh|]); exists prev;
      (split; [rewrite Hh; apply last_entry_app|]); (split; [reflexivity|]);
      rewrite events_app, filter_app, Hnone, Eview; reflexivity.
  - intros He.
    assert (Hlen : length (history s1) <= 1).
    { rewrite Hs1. cbn [history]. rewrite He. simpl. lia. }
    rewrite (@handlers_revert_nothing chain' explain_chain' file' text_area' _ s1 Hlen).
    unfold events. rewrite map_app.
    destruct (comparison_view s1); unfold state_of, trace_of; cbn [fst snd];
      (split; [rewrite Hs1; cbn [history set_clear_triggered]; now rewrite He
              | apply in_or_app; right; now left]).
Qed.

Lemma X12_revert_after_optimize_witness :
  let chain := fun (code : string) (_ : option string) =>
                 Returns (DictWithText (code ++ "  # cleaned")) in
  let s := mkSession [mkEntry "x=1" "x = 1" None] false "" false in
  let s1 := state_of (script None chain chain (click OptimizeCode None (fun _ => "y=2")) s) in
  let run := script None chain chain (click Revert None (fun _ => "y=2")) s1 in
  history (state_of run) = history s /\
  exists prev,
    last_entry (history s) = Some prev /\
    outcome_of run = Done (mkLocals (messy prev) (language prev) (Some (cleaned prev))) /\
    filter is_comparison_or_download (events (trace_of run))
    = if PyStr.truthy (PyStr.strip (cleaned prev))
         && PyStr.truthy (PyStr.strip (messy prev))
      then [Comparison (messy prev) (cleaned prev) (language prev);
            Download (cleaned prev)
                     ("optimized_code." ++ str_of_language (language prev))]
      else [].
Proof.
  intros chain s s1 run.
  assert (Hne : history s <> []) by discriminate.
  exact (proj1 (@X12_revert_after_optimize None chain chain None (fun _ => "y=2")
                  None chain chain None (fun _ => "y=2") s
                  (DictWithText "y=2  # cleaned") eq_refl eq_refl) Hne).
Defined.

(** ** The comparison section *)

Section Observes.

Variable P : Obs -> Prop.

Lemma observes_ret {A} (a : A) : observes P (ret a).
Proof. intros s. constructor. Qed.

Lemma observes_get : observes P get.
Proof. intros s. constructor. Qed.

Lemma observes_modify (f : SessionState -> SessionState) : observes P (modify f).
Proof. intros s. constructor. Qed.

Lemma observes_interrupt {A} (sg : Signal) : observes P (@interrupt A sg).
Proof. intros s. constructor. Qed.

Lemma observes_emit (e : Event) : (forall s, P (e, s)) -> observes P (emit e).
Proof. intros He s. constructor; [apply He | constructor]. Qed.

Lemma observes_bind {A B} (m : Script A) (k : A -> Script B) :
  observes P m -> (forall a, observes P (k a)) -> observes P (bind m k).
Proof.
  intros Hm Hk s. unfold bind. specialize (Hm s).
  destruct (m s) as [[[a|sg] s1] t1]; unfold trace_of in Hm; cbn [snd] in Hm.
  - specialize (Hk a s1). destruct (k a s1) as [[o s2] t2].
    unfold trace_of in *. cbn [snd] in *. apply Forall_app. now split.
  - exact Hm.
Qed.

Lemma observes_when (b : bool) (m : Script unit) :
  observes P m -> observes P (when b m).
Proof. intros Hm. destruct b; [exact Hm | apply observes_ret]. Qed.

Lemma observes_emit_calls (calls : list Call) :
  (forall c s, P (External c, s)) -> observes P (emit_calls calls).
Proof.
  intros Hc s. rewrite emit_calls_run. unfold trace_of. cbn [snd].
  apply Forall_forall. intros o Ho. apply in_map_iff in Ho as [c [<- _]]. apply Hc.
Qed.

End Observes.

Lemma comparison_section_rendered explain_chain inp loc :
  observes rendered_from_view (comparison_section explain_chain inp loc).
Proof.
  intros s. unfold comparison_section, bind, get.
  destruct (comparison_view s) as [last|] eqn:Ev; [|constructor].
  assert (Hc : rendered_from_view (Comparison (messy last) (cleaned last) (language last), s)).
  { exists last. repeat split. exact Ev. }
  assert (Hd : rendered_from_view
                 (Download (cleaned last)
                           ("optimized_code." ++ str_of_language (language last)), s)).
  { exists last. repeat split. exact Ev. }
  unfold emit, ret, interrupt.
  destruct (explain_optimized_btn inp);
    [destruct (explain_chain (cleaned last) (language last))|];
    unfold trace_of; cbn [snd app];
    repeat (constructor; try assumption); exact I.
Qed.

Ltac observes_steps :=
  repeat first
    [ apply comparison_section_rendered
    | apply observes_ret | apply observes_get | apply observes_modify
    | apply observes_interrupt
    | apply observes_emit; intros ?; exact I
    | apply observes_emit_calls; intros ? ?; exact I
    | apply observes_when
    | apply observes_bind; [|intros ?]
    | match goal with
      | |- observes _ (if ?b then _ else _) => destruct b
      | |- observes _ (match ?x with Some _ => _ | None => _ end) => destruct x
      | |- observes _ (match ?x with Returns _ => _ | Raises => _ end) => destruct x
      | |- observes _ (let (_, _) := ?x in _) => destruct x
      end ].

(** X17: in every run, on any inputs, a comparison or a download that is
    rendered shows the entry that the condition of lines 314-319 selects
    from the session at that moment: the last entry of the history, with a
    cleaned and an original code that are not blank, while
    [show_explanation_only] is off; the downloaded data is its cleaned code
    and the file is named [optimized_code.] followed by its language. *)
Theorem X17_rendered_entry_is_the_last_one
        guess_lexer chain explain_chain (inp : Inputs) (s : SessionState) :
  Forall (fun o =>
            rendered_from_view o /\
            (is_comparison_or_download (fst o) = true ->
             exists last,
               last_entry (history (snd o)) = Some last /\
               show_explanation_only (snd o) = false /\
               PyStr.truthy (PyStr.strip (cleaned last)) = true /\
               PyStr.truthy (PyStr.strip (messy last)) = true))
         (trace_of (script guess_lexer chain explain_chain inp s)).
Proof.
  assert (Hview : forall st last,
             comparison_view st = Some last ->
             last_entry (history st) = Some last /\
             show_explanation_only st = false /\
             PyStr.truthy (PyStr.strip (cleaned last)) = true /\
             PyStr.truthy (PyStr.strip (messy last)) = true).
  { intros st last. unfold comparison_view.
    destruct (last_entry (history st)) as [e|]; [|discriminate].
    destruct (PyStr.truthy (PyStr.strip (cleaned e))) eqn:E1; [|discriminate].
    destruct (PyStr.truthy (PyStr.strip (messy e))) eqn:E2; [|discriminate].
    destruct (show_explanation_only st) eqn:E3; [discriminate|].
    cbn. intros H. inversion H; subst. repeat split; assumption. }
  assert (Hobs : observes rendered_from_view (script guess_lexer chain explain_chain inp)).
  { unfold script, handlers, code_input, detect_language, revert_handler, clear_handler,
      reset_clear_flag, optimize_handler, explain_handler.
    cbv zeta. observes_steps. }
  specialize (Hobs s). revert Hobs. apply Forall_impl.
  intros [e st] Hr. split; [exact Hr|].
  unfold rendered_from_view in Hr. cbn [fst snd] in *.
  destruct e; try discriminate; intros _;
    destruct Hr as [last [Hv _]]; exists last; now apply Hview.
Qed.

(** X16: the button of the comparison section asks the explain chain about
    the cleaned code of the last entry, with its language, and only when
    the comparison is shown; the run changes nothing in the history, the
    typed text and [show_explanation_only], whether the chain returns (the
    explanation is rendered after the download) or raises. *)
Theorem X16_explain_optimized_code
        guess_lexer chain explain_chain file text_area (s : SessionState) :
  let inp := click_explain_optimized file text_area in
  let run := script guess_lexer chain explain_chain inp s in
  history (state_of run) = history s /\
  text_input_value (state_of run) = text_input_value s /\
  show_explanation_only (state_of run) = show_explanation_only s /\
  match comparison_view s with
  | None => completion_calls (trace_of run) = 0
  | Some last =>
      completion_calls (trace_of run) = 1 /\
      In (External (CallExplainChain (cleaned last) (language last)))
         (events (trace_of run)) /\
      match explain_chain (cleaned last) (language last) with
      | Returns explanation =>
          In (OptimizedExplanation (text_of explanation)) (events (trace_of run)) /\
          exists loc, outcome_of run = Done loc
      | Raises => outcome_of run = Interrupted Exception
      end
  end.
Proof.
  intros inp run. subst run.
  rewrite script_state, script_outcome, script_trace.
  set (loc := entry_locals guess_lexer inp s).
  assert (H : handlers chain explain_chain inp loc s
              = match comparison_section explain_chain inp loc (set_clear_triggered false s)
                with (o, s2, t2) => (o, s2, t2) end).
  { unfold handlers.
    run_step (@revert_handler_off inp loc s eq_refl).
    run_step (@clear_handler_off inp s eq_refl).
    run_step (reset_clear_flag_run s).
    run_step (@optimize_handler_off chain inp loc (set_clear_triggered false s) eq_refl).
    run_step (@explain_handler_off explain_chain inp loc (set_clear_triggered false s)
                eq_refl).
    now destruct (comparison_section _ _ _ _) as [[o s2] t2]. }
  rewrite H. clear H.
  unfold comparison_section, bind, get. rewrite comparison_view_clear_triggered.
  destruct (comparison_view s) as [last|].
  - cbn [explain_optimized_btn inp click_explain_optimized].
    unfold emit, ret, interrupt.
    destruct (explain_chain (cleaned last) (language last)) as [explanation|];
      unfold state_of, outcome_of, trace_of; cbn [fst snd app];
      (split; [reflexivity|]); (split; [reflexivity|]); (split; [reflexivity|]);
      rewrite completion_calls_app, completion_calls_entry;
      unfold events; rewrite map_app;
      (split; [reflexivity|]);
      (split; [apply in_or_app; right; cbn; tauto|]).
    + split; [apply in_or_app; right; cbn; tauto|]. eexists. reflexivity.
    + reflexivity.
  - unfold ret, state_of, trace_of. cbn [fst snd].
    split; [reflexivity|]. split; [reflexivity|]. split; [reflexivity|].
    rewrite completion_calls_app, completion_calls_entry. reflexivity.
Qed.

(** ** The text area *)

(** X18: what the user typed is kept by the callback of the text area and
    is the value with which the next run creates the text area, unless a
    file with a non-empty text is uploaded: then the value is the text of
    the file, whatever was typed. *)
Theorem X18_value_of_the_text_area
        guess_lexer chain explain_chain (inp : Inputs) (text : string) (s : SessionState) :
  clear_triggered s = false ->
  let typed := on_change text s in
  let value :=
    match uploaded_file inp with
    | Some f => if PyStr.truthy (uploaded_text f) then uploaded_text f else text
    | None => text
    end in
  text_input_value typed = text /\
  history typed = history s /\
  pasted_code inp typed = st_text_area inp value /\
  exists t,
    trace_of (script guess_lexer chain explain_chain inp typed) = (TextArea value, typed) :: t.
Proof.
  intros Hct typed value. subst typed value.
  split; [reflexivity|]. split; [reflexivity|].
  assert (Hv : (if clear_triggered (on_change text s) then ""
                else get_initial_code inp (on_change text s))
               = match uploaded_file inp with
                 | Some f => if PyStr.truthy (uploaded_text f) then uploaded_text f else text
                 | None => text
                 end).
  { cbn [on_change set_text_input_value clear_triggered]. rewrite Hct.
    unfold get_initial_code. cbn [text_input_value]. reflexivity. }
  split.
  - unfold pasted_code. now rewrite Hv.
  - rewrite script_trace. unfold entry_trace. rewrite Hv. cbn [app]. eexists. reflexivity.
Qed.

Lemma X18_value_of_the_text_area_witness :
  let chain := fun (_ : string) (_ : option string) => Raises in
  let inp := click NoButton (Some (mkUploadedFile "a.py" "print(1)")) (fun v => v) in
  exists t,
    trace_of (script None chain chain inp (on_change "typed text" fresh_session))
    = (TextArea "print(1)", on_change "typed text" fresh_session) :: t.
Proof.
  intros chain inp.
  exact (proj2 (proj2 (proj2 (@X18_value_of_the_text_area None chain chain inp
                                "typed text" fresh_session eq_refl)))).
Defined.

(** X20: a clear blanks the text area for one run only and does not reach
    the uploaded file: the next run creates the text area empty; the run
    after it, with a file of non-empty text still uploaded, creates it with
    the text of the file again, and without a file it creates it empty. *)
Theorem X20_after_a_clear
        guess1 chain1 explain1 guess2 chain2 explain2 guess3 chain3 explain3
        (inp1 inp2 inp3 : Inputs) (s : SessionState) :
  clear_btn inp1 = true ->
  clear_btn inp2 = false ->
  let s1 := state_of (script guess1 chain1 explain1 inp1 s) in
  let s2 := state_of (script guess2 chain2 explain2 inp2 s1) in
  (exists t, trace_of (script guess2 chain2 explain2 inp2 s1) = (TextArea "", s1) :: t) /\
  (forall f, uploaded_file inp3 = Some f ->
             PyStr.truthy (uploaded_text f) = true ->
             exists t, trace_of (script guess3 chain3 explain3 inp3 s2)
                       = (TextArea (uploaded_text f), s2) :: t) /\
  (uploaded_file inp3 = None ->
   exists t, trace_of (script guess3 chain3 explain3 inp3 s2) = (TextArea "", s2) :: t).
Proof.
  intros Hc1 Hc2 s1 s2.
  assert (H1 : clear_triggered s1 = true).
  { subst s1. now rewrite run_clear_triggered. }
  assert (H2 : clear_triggered s2 = false).
  { subst s2. now rewrite run_clear_triggered. }
  assert (T2 : text_input_value s2 = "").
  { subst s2. rewrite run_text_input_value, Hc2.
    subst s1. now rewrite run_text_input_value, Hc1. }
  split; [|split].
  - rewrite script_trace. unfold entry_trace. rewrite H1. cbn [app]. eexists. reflexivity.
  - intros f Hf Ht. rewrite script_trace. unfold entry_trace. rewrite H2.
    unfold get_initial_code. rewrite Hf, Ht. cbn [app]. eexists. reflexivity.
  - intros Hf. rewrite script_trace. unfold entry_trace. rewrite H2.
    unfold get_initial_code. rewrite Hf, T2. cbn [app]. eexists. reflexivity.
Qed.

Lemma X20_after_a_clear_witness :
  let chain := fun (_ : string) (_ : option string) => Raises in
  let file := Some (mkUploadedFile "a.py" "print(1)") in
  let s := mkSession [mkEntry "x=1" "x = 1" None] false "x=1" false in
  let s1 := state_of (script None chain chain (click ClearAll file (fun v => v)) s) in
  let s2 := state_of (script None chain chain (click NoButton file (fun v => v)) s1) in
  exists t, trace_of (script None chain chain (click NoButton file (fun v => v)) s2)
            = (TextArea "print(1)", s2) :: t.
Proof.
  intros chain file s s1 s2.
  exact (proj1 (proj2 (@X20_after_a_clear None chain chain None chain chain None chain chain
                         (click ClearAll file (fun v => v))
                         (click NoButton file (fun v => v))
                         (click NoButton file (fun v => v)) s eq_refl eq_refl))
               (mkUploadedFile "a.py" "print(1)") eq_refl eq_refl).
Defined.

(** ** Calls to the chains *)

Lemma completion_calls_rendered (t : list Obs) :
  Forall (fun o => is_completion_call (fst o) = false) t -> completion_calls t = 0.
Proof.
  intros H. apply completion_calls_none. unfold events.
  apply Forall_map. exact H.
Qed.

(** X19: a click makes at most one call to the chains: optimize and
    explain on a code that is not blank make one, to their own chain, and
    every other click, and both on a blank code, make none. *)
Theorem X19_one_call_per_click
        guess_lexer chain explain_chain file text_area (b : Button) (s : SessionState) :
  let inp := click b file text_area in
  let code := pasted_code inp s in
  let lang := resolved guess_lexer inp s in
  let run := script guess_lexer chain explain_chain inp s in
  filter is_completion_call (events (trace_of run))
  = match b with
    | OptimizeCode =>
        if PyStr.truthy (PyStr.strip code) then [External (CallChain code lang)] else []
    | ExplainCode =>
        if PyStr.truthy (PyStr.strip code) then [External (CallExplainChain code lang)] else []
    | _ => []
    end.
Proof.
  intros inp code lang run. subst run.
  rewrite script_trace, events_app, filter_app.
  rewrite (filter_none _ (no_completion_call_at_entry guess_lexer inp s)). cbn [app].
  assert (Hidle : forall b', 
             revert_btn (click b' file text_area) = false ->
             clear_btn (click b' file text_area) = false ->
             optimize_btn (click b' file text_area)
               && PyStr.truthy (PyStr.strip (pasted_code (click b' file text_area) s)) = false ->
             explain_btn (click b' file text_area)
               && PyStr.truthy (PyStr.strip (pasted_code (click b' file text_area) s)) = false ->
             filter is_completion_call
               (events (trace_of (handlers chain explain_chain (click b' file text_area)
                                    (entry_locals guess_lexer (click b' file text_area) s) s)))
             = []).
  { intros b' Hr Hc Ho He.
    rewrite (@handlers_idle chain explain_chain file text_area b'
               (entry_locals guess_lexer (click b' file text_area) s) s Hr Hc Ho He).
    now destruct (comparison_view s). }
  destruct b.
  - apply Hidle; reflexivity.
  - destruct (PyStr.truthy (PyStr.strip code)) eqn:Hc.
    + destruct (chain code lang) as [result|] eqn:Hr.
      * pose proof (@handlers_optimize chain explain_chain file text_area
                      (entry_locals guess_lexer inp s) s result Hc Hr) as H.
        cbv zeta in H. fold inp in H. rewrite H.
        now destruct (PyStr.truthy (PyStr.strip (text_of result))).
      * pose proof (@handlers_optimize_raises chain explain_chain file text_area
                      (entry_locals guess_lexer inp s) s Hc Hr) as H.
        fold inp in H. now rewrite H.
    + apply Hidle; try reflexivity. fold inp code. now rewrite Hc.
  - destruct (PyStr.truthy (PyStr.strip code)) eqn:Hc.
    + destruct (explain_chain code lang) as [explanation|] eqn:Hr.
      * pose proof (@handlers_explain chain explain_chain file text_area
                      (entry_locals guess_lexer inp s) s explanation Hc Hr) as H.
        cbv zeta in H. fold inp in H. now rewrite H.
      * pose proof (@handlers_explain_raises chain explain_chain file text_area
                      (entry_locals guess_lexer inp s) s Hc Hr) as H.
        fold inp in H. now rewrite H.
    + apply Hidle; try reflexivity. fold inp code. now rewrite Hc.
  - destruct (Nat.le_gt_cases (length (history s)) 1) as [Hlen | Hlen].
    + rewrite (@handlers_revert_nothing chain explain_chain file text_area _ s Hlen).
      now destruct (comparison_view s).
    + destruct (two_last _ Hlen) as [h [prev [cur Hh]]].
      rewrite (@handlers_revert_pop chain explain_chain file text_area _ s h prev cur Hh).
      now destruct (comparison_view _).
  - pose proof (handlers_clear chain explain_chain file text_area
                  (entry_locals guess_lexer inp s) s) as H.
    fold inp in H. now rewrite H.
Qed.

(** ** What an optimize shows *)

(** X23: a successful optimize shows its own result at once: when the
    returned text is not blank, the run renders the comparison of the code
    and the returned text and offers the returned text for download, named
    after the detected language; when it is blank, the entry is stored all
    the same and nothing is rendered. *)
Theorem X23_optimize_shows_its_result
        guess_lexer chain explain_chain file text_area (s : SessionState) result :
  let inp := click OptimizeCode file text_area in
  let code := pasted_code inp s in
  let lang := resolved guess_lexer inp s in
  let run := script guess_lexer chain explain_chain inp s in
  PyStr.truthy (PyStr.strip code) = true ->
  chain code lang = Returns result ->
  last_entry (history (state_of run)) = Some (mkEntry code (text_of result) lang) /\
  filter is_comparison_or_download (events (trace_of run))
  = if PyStr.truthy (PyStr.strip (text_of result))
    then [Comparison code (text_of result) lang;
          Download (text_of result) ("optimized_code." ++ str_of_language lang)]
    else [].
Proof.
  intros inp code lang run Hc Hr. subst run.
  rewrite script_state, script_trace.
  pose proof (@handlers_optimize chain explain_chain file text_area
                (entry_locals guess_lexer inp s) s result Hc Hr) as H.
  cbv zeta in H. fold inp in H. rewrite H.
  rewrite events_app, filter_app.
  rewrite (filter_none _ (events_entry_not_rendered guess_lexer inp s)).
  destruct (PyStr.truthy (PyStr.strip (text_of result)));
    unfold state_of, trace_of; cbn [fst snd history];
    (split; [apply last_entry_app | reflexivity]).
Qed.

Lemma X23_optimize_shows_its_result_witness :
  let chain := fun (code : string) (_ : option string) =>
                 Returns (DictWithText (code ++ "  # cleaned")) in
  let file := Some (mkUploadedFile "a.py" "x=1") in
  let run := script None chain chain (click OptimizeCode file (fun v => v)) fresh_session in
  filter is_comparison_or_download (events (trace_of run))
  = [Comparison "x=1" "x=1  # cleaned" (Some "python");
     Download "x=1  # cleaned" "optimized_code.python"].
Proof.
  intros chain file run.
  exact (proj2 (@X23_optimize_shows_its_result None chain chain file (fun v => v)
                  fresh_session (DictWithText "x=1  # cleaned") eq_refl eq_refl)).
Defined.
